(** * Verification of the Gemini client ([src/services/gemini_client.py])

    The client formats a prompt, sends it to a hosted text-generation API and
    turns the reply into a nested record, with two degraded tiers (heuristic
    extraction, emergency fallback).  This development is a shallow embedding
    of that module and settles the claims of its specification against it.

    Conventions of the embedding.
    - A Python [str] is a [string] holding its UTF-8 encoding, as the literals
      of this file do.  Substring search, concatenation and the slices taken
      between two search results are the same on the encoding; the two
      operations of the source that look at characters ([str.strip] and the
      slice [text[:2000]]) are written out on encoded characters.
    - Python values are the inductive type [value]; a [dict] with string keys
      is a [gmap string value].
    - An operation that may raise returns [Exc A]; [try_except] is the
      [try: ... except Exception] of the source.
    - The services of the Python runtime the module calls ([json.loads], the
      [repr] of a container, the remote model, the clock) are parameters. *)

From Stdlib Require Import ZArith Ascii String List Lia.
From stdpp Require Import base gmap strings list fin_maps pretty.

#[local] Set Warnings "-register-all,-clear-no-such-hyp".


(** ** Text *)

Module Text.

(** The line feed and the double quote, the two characters this file never
    writes inside a literal. *)
Definition nl : string := String (ascii_of_nat 10) "".
Definition dq : string := String (ascii_of_nat 34) "".

(** [q s] is [s] between double quotes. *)
Definition q (s : string) : string := dq +:+ s +:+ dq.

(** [lines ls] is every element of [ls] followed by a line feed: the body of
    a triple-quoted literal, line by line. *)
Fixpoint lines (ls : list string) : string :=
  match ls with
  | [] => ""
  | l :: ls' => l +:+ nl +:+ lines ls'
  end.

(** [startswith p s]: [s.startswith(p)]. *)
Fixpoint startswith (p s : string) : bool :=
  match p, s with
  | "", _ => true
  | String a p', String b s' => if Ascii.eqb a b then startswith p' s' else false
  | String _ _, "" => false
  end.

(** [find_from sub s i]: the lowest position of [sub] in [s], counted from
    [i]. *)
Fixpoint find_from (sub s : string) (i : nat) : option nat :=
  if startswith sub s then Some i
  else match s with
       | "" => None
       | String _ s' => find_from sub s' (S i)
       end.

(** [rfind_from sub s i]: the highest position of [sub] in [s], counted from
    [i]. *)
Fixpoint rfind_from (sub s : string) (i : nat) : option nat :=
  match s with
  | "" => if startswith sub "" then Some i else None
  | String _ s' =>
      match rfind_from sub s' (S i) with
      | Some j => Some j
      | None => if startswith sub s then Some i else None
      end
  end.

(** [str.find] and [str.rfind]: the position, or -1. *)
Definition py_find (s sub : string) : Z :=
  match find_from sub s 0 with Some i => Z.of_nat i | None => (-1)%Z end.

Definition py_rfind (s sub : string) : Z :=
  match rfind_from sub s 0 with Some i => Z.of_nat i | None => (-1)%Z end.

(** [sub in s]. *)
Definition py_in (sub s : string) : bool :=
  match find_from sub s 0 with Some _ => true | None => false end.

(** [occurrences sub s]: the number of positions of [s] at which [sub]
    starts. *)
Fixpoint occurrences (sub s : string) : nat :=
  (if startswith sub s then 1 else 0) +
  match s with
  | "" => 0
  | String _ s' => occurrences sub s'
  end.

(** [has_char c s]: the character [c] occurs in [s]. *)
Fixpoint has_char (c : ascii) (s : string) : bool :=
  match s with
  | "" => false
  | String a s' => if Ascii.eqb c a then true else has_char c s'
  end.

Fixpoint drop (n : nat) (s : string) : string :=
  match n, s with
  | 0, _ => s
  | S n', String _ s' => drop n' s'
  | S _, "" => ""
  end.

Fixpoint take (n : nat) (s : string) : string :=
  match n, s with
  | 0, _ => ""
  | S n', String c s' => String c (take n' s')
  | S _, "" => ""
  end.

(** A slice bound of Python: a negative bound counts from the end, and the
    result is clipped to the string. *)
Definition clip (len i : Z) : nat :=
  Z.to_nat (Z.min len (Z.max 0 (if (i <? 0)%Z then len + i else i)))%Z.

(** [s[start:stop]]. *)
Definition py_slice (s : string) (start stop : Z) : string :=
  let len := Z.of_nat (String.length s) in
  let a := clip len start in
  let b := clip len stop in
  take (b - a) (drop a s).

Fixpoint rev_onto (s acc : string) : string :=
  match s with
  | "" => acc
  | String c s' => rev_onto s' (String c acc)
  end.

Definition rev (s : string) : string := rev_onto s "".

(** The white space of [str.strip()]: the code points for which
    [str.isspace] holds, by their UTF-8 encodings of one, two and three
    bytes. *)
Definition space1 (a : ascii) : bool :=
  let n := nat_of_ascii a in
  (((9 <=? n) && (n <=? 13)) || ((28 <=? n) && (n <=? 32)))%nat.

(** U+0085 and U+00A0. *)
Definition space2 (a b : ascii) : bool :=
  ((nat_of_ascii a =? 194) &&
   ((nat_of_ascii b =? 133) || (nat_of_ascii b =? 160)))%nat.

(** U+1680, U+2000 to U+200A, U+2028, U+2029, U+202F, U+205F and U+3000. *)
Definition space3 (a b c : ascii) : bool :=
  let x := nat_of_ascii a in
  let y := nat_of_ascii b in
  let z := nat_of_ascii c in
  (((x =? 225) && (y =? 154) && (z =? 128)) ||
   ((x =? 226) && (y =? 128) &&
      (((128 <=? z) && (z <=? 138)) || (z =? 168) || (z =? 169) || (z =? 175))) ||
   ((x =? 226) && (y =? 129) && (z =? 159)) ||
   ((x =? 227) && (y =? 128) && (z =? 128)))%nat.

(** [lstrip s]: [s] without its leading white space. *)
Fixpoint lstrip (s : string) : string :=
  match s with
  | "" => ""
  | String a s1 =>
      if space1 a then lstrip s1
      else match s1 with
           | "" => s
           | String b s2 =>
               if space2 a b then lstrip s2
               else match s2 with
                    | "" => s
                    | String c s3 => if space3 a b c then lstrip s3 else s
                    end
           end
  end.

(** The same on the reversed string, where an encoded character reads from
    its last byte to its first. *)
Fixpoint lstrip_rev (s : string) : string :=
  match s with
  | "" => ""
  | String a s1 =>
      if space1 a then lstrip_rev s1
      else match s1 with
           | "" => s
           | String b s2 =>
               if space2 b a then lstrip_rev s2
               else match s2 with
                    | "" => s
                    | String c s3 => if space3 c b a then lstrip_rev s3 else s
                    end
           end
  end.

Definition rstrip (s : string) : string := rev (lstrip_rev (rev s)).

(** [s.strip()]. *)
Definition py_strip (s : string) : string := rstrip (lstrip s).

(** A byte that continues an encoded character. *)
Definition continuation (a : ascii) : bool :=
  let n := nat_of_ascii a in ((128 <=? n) && (n <? 192))%nat.

(** [s[:n]] for [0 <= n]: the first [n] characters. *)
Fixpoint py_prefix (n : nat) (s : string) : string :=
  match s with
  | "" => ""
  | String c s' =>
      if continuation c then String c (py_prefix n s')
      else match n with
           | 0 => ""
           | S n' => String c (py_prefix n' s')
           end
  end.

End Text.

(** ** Values, exceptions and dictionaries *)

(** The values the module handles: what [json.loads] can return and what a
    caller can put in the request.  A float is kept as the text of its
    literal. *)
Inductive value : Type :=
  | VNone
  | VBool (b : bool)
  | VInt (z : Z)
  | VFloat (literal : string)
  | VStr (s : string)
  | VList (l : list value)
  | VDict (m : gmap string value).

(** The exceptions of class [Exception] that the module raises or meets.
    [OtherError cls msg] is an exception of any other class [cls], such as
    the transport and service errors of the API. *)
Inductive exn : Type :=
  | ValueError (msg : string)
  | JSONDecodeError (msg : string)
  | NameError (name : string)
  | AttributeError (msg : string)
  | TypeError (msg : string)
  | PlainException (msg : string)
  | OtherError (cls msg : string).

(** A computation that returns or raises. *)
Inductive Exc (A : Type) : Type :=
  | Ok (a : A)
  | Raise (e : exn).
Arguments Ok {A} a.
Arguments Raise {A} e.

#[global] Instance Exc_ret : MRet Exc := @Ok.
#[global] Instance Exc_bind : MBind Exc := λ A B f c,
  match c with
  | Ok a => f a
  | Raise e => Raise e
  end.

(** [try: body except Exception as e: handler e]. *)
Definition try_except {A} (body : Exc A) (handler : exn → Exc A) : Exc A :=
  match body with
  | Ok a => Ok a
  | Raise e => handler e
  end.

(** [try: body except C as e: handler e] for a class [C] of exceptions. *)
Definition try_except_on {A} (C : exn → bool) (body : Exc A)
    (handler : exn → Exc A) : Exc A :=
  match body with
  | Ok a => Ok a
  | Raise e => if C e then handler e else Raise e
  end.

Definition is_JSONDecodeError (e : exn) : bool :=
  match e with
  | JSONDecodeError _ => true
  | _ => false
  end.

(** [returns c]: [c] returns a value, it does not raise. *)
Definition returns {A} (c : Exc A) : Prop := ∃ a, c = Ok a.

(** A dictionary display [{k1: v1, ...}]: the pairs are stored from left to
    right, a later pair replaces an earlier one with the same key. *)
Definition py_dict (kvs : list (string * value)) : value :=
  VDict (fold_left (λ m kv, <[kv.1 := kv.2]> m) kvs ∅).

(** [d.get(k, dflt)] on a dictionary. *)
Definition dict_get (d : gmap string value) (k : string) (dflt : value) : value :=
  default dflt (d !! k).

(** [obj[k] = x]: only a dictionary takes a string key. *)
Definition setitem (obj : value) (k : string) (x : value) : Exc value :=
  match obj with
  | VDict m => Ok (VDict (<[k := x]> m))
  | VList _ => Raise (TypeError "list indices must be integers or slices, not str")
  | _ => Raise (TypeError "object does not support item assignment")
  end.

(** The top-level section names of a record. *)
Definition sections (v : value) : gset string :=
  match v with
  | VDict m => dom m
  | _ => ∅
  end.

(** The section [k] of a record. *)
Definition section (v : value) (k : string) : option value :=
  match v with
  | VDict m => m !! k
  | _ => None
  end.

(** Truth value of an optional string: [None] and the empty string are
    false. *)
Definition truthy (o : option string) : bool :=
  match o with
  | Some (String _ _) => true
  | _ => false
  end.

(** ** A reference decoder for JSON

    [json.loads] belongs to the Python library, and the module is modelled
    for any decoder (see [Section Client]).  [Json.loads] is an executable
    decoder, after the scanner of the library ([json.decoder],
    [json.scanner]), used where a statement is evaluated on a text. *)

Module Json.
Import Text.

Definition code (a : ascii) : N := N_of_ascii a.

Definition is_ws (a : ascii) : bool :=
  ((code a =? 32) || (code a =? 9) || (code a =? 10) || (code a =? 13))%N.

Fixpoint skip_ws (s : string) : string :=
  match s with
  | "" => ""
  | String a s' => if is_ws a then skip_ws s' else s
  end.

Definition is_digit (a : ascii) : bool := ((48 <=? code a) && (code a <=? 57))%N.

(** [span p s]: the longest prefix of [s] whose characters satisfy [p], and
    the rest. *)
Fixpoint span (p : ascii → bool) (s : string) : string * string :=
  match s with
  | "" => ("", "")
  | String a s' =>
      if p a then let '(r, t) := span p s' in (String a r, t) else ("", s)
  end.

Fixpoint Z_of_digits (ds : string) (acc : Z) : Z :=
  match ds with
  | "" => acc
  | String a ds' => Z_of_digits ds' (10 * acc + Z.of_N (code a - 48))
  end.

(** A number: an optional minus sign, then a zero or a run of digits that
    does not start with a zero, then an optional fraction (a dot and digits)
    and an optional exponent (e or E, an optional sign, digits).  Without
    fraction and exponent it is an integer. *)
Definition number (s : string) : option (value * string) :=
  let '(sign, s1) :=
    match s with
    | String "-" t => ("-", t)
    | _ => ("", s)
    end in
  let '(ds, s2) :=
    match s1 with
    | String "0" t => ("0", t)
    | _ => span is_digit s1
    end in
  match ds with
  | "" => None
  | _ =>
      let '(frac, s3) :=
        match s2 with
        | String "." t =>
            match span is_digit t with
            | ("", _) => ("", s2)
            | (fs, t') => ("." +:+ fs, t')
            end
        | _ => ("", s2)
        end in
      let '(ex, s4) :=
        match s3 with
        | String e t =>
            if ((code e =? 101) || (code e =? 69))%N then
              let '(sg, t1) :=
                match t with
                | String "+" u => ("+", u)
                | String "-" u => ("-", u)
                | _ => ("", t)
                end in
              match span is_digit t1 with
              | ("", _) => ("", s3)
              | (es, t2) => (String e sg +:+ es, t2)
              end
            else ("", s3)
        | "" => ("", s3)
        end in
      match frac, ex with
      | "", "" =>
          Some (VInt (if String.eqb sign "-" then - Z_of_digits ds 0 else Z_of_digits ds 0)%Z, s4)
      | _, _ => Some (VFloat (sign +:+ ds +:+ frac +:+ ex), s4)
      end
  end.

Definition hex (a : ascii) : option N :=
  let n := code a in
  if ((48 <=? n) && (n <=? 57))%N then Some (n - 48)%N
  else if ((97 <=? n) && (n <=? 102))%N then Some (n - 87)%N
  else if ((65 <=? n) && (n <=? 70))%N then Some (n - 55)%N
  else None.

Definition hex4 (a b c d : ascii) : option N :=
  match hex a, hex b, hex c, hex d with
  | Some x, Some y, Some z, Some w => Some (((x * 16 + y) * 16 + z) * 16 + w)%N
  | _, _, _, _ => None
  end.

(** The UTF-8 encoding of a code point. *)
Definition utf8 (u : N) : string :=
  let b (n : N) := ascii_of_N n in
  if (u <? 128)%N then String (b u) ""
  else if (u <? 2048)%N then
    String (b (192 + u / 64)%N) (String (b (128 + u mod 64)%N) "")
  else if (u <? 65536)%N then
    String (b (224 + u / 4096)%N)
      (String (b (128 + (u / 64) mod 64)%N) (String (b (128 + u mod 64)%N) ""))
  else
    String (b (240 + u / 262144)%N)
      (String (b (128 + (u / 4096) mod 64)%N)
         (String (b (128 + (u / 64) mod 64)%N) (String (b (128 + u mod 64)%N) ""))).

Definition simple_escape (a : ascii) : option ascii :=
  let n := code a in
  if (n =? 34)%N then Some a            (* quote *)
  else if (n =? 92)%N then Some a       (* backslash *)
  else if (n =? 47)%N then Some a       (* slash *)
  else if (n =? 98)%N then Some (ascii_of_N 8)
  else if (n =? 102)%N then Some (ascii_of_N 12)
  else if (n =? 110)%N then Some (ascii_of_N 10)
  else if (n =? 114)%N then Some (ascii_of_N 13)
  else if (n =? 116)%N then Some (ascii_of_N 9)
  else None.

Definition high_surrogate (u : N) : bool := ((55296 <=? u) && (u <=? 56319))%N.
Definition low_surrogate (u : N) : bool := ((56320 <=? u) && (u <=? 57343))%N.

Definition consed (a : string) (r : Exc (string * string)) : Exc (string * string) :=
  '(s, t) ← r; Ok (a +:+ s, t).

(** The characters of a string literal after its opening quote, and the
    text after its closing quote. *)
Fixpoint string_body (s : string) : Exc (string * string) :=
  match s with
  | "" => Raise (JSONDecodeError "Unterminated string")
  | String a s1 =>
      if (code a =? 34)%N then Ok ("", s1)
      else if (code a =? 92)%N then
        match s1 with
        | "" => Raise (JSONDecodeError "Unterminated string")
        | String b s2 =>
            if (code b =? 117)%N then
              match s2 with
              | String h1 (String h2 (String h3 (String h4 s3))) =>
                  match hex4 h1 h2 h3 h4 with
                  | None => Raise (JSONDecodeError "Invalid \uXXXX escape")
                  | Some u =>
                      match s3 with
                      | String e1 (String e2 (String k1 (String k2 (String k3 (String k4 s4))))) =>
                          match hex4 k1 k2 k3 k4 with
                          | Some u2 =>
                              if high_surrogate u && (code e1 =? 92)%N
                                 && (code e2 =? 117)%N && low_surrogate u2
                              then consed (utf8 (65536 + (u - 55296) * 1024 + (u2 - 56320))%N)
                                     (string_body s4)
                              else consed (utf8 u) (string_body s3)
                          | None => consed (utf8 u) (string_body s3)
                          end
                      | _ => consed (utf8 u) (string_body s3)
                      end
                  end
              | _ => Raise (JSONDecodeError "Invalid \uXXXX escape")
              end
            else
              match simple_escape b with
              | Some c => consed (String c "") (string_body s2)
              | None => Raise (JSONDecodeError "Invalid \escape")
              end
        end
      else if (code a <? 32)%N then Raise (JSONDecodeError "Invalid control character")
      else consed (String a "") (string_body s1)
  end.

Definition expecting_value : exn := JSONDecodeError "Expecting value".

(** The scanner.  [scan] reads one value at the head of the text; [members]
    reads the pairs of an object from a key on, [elements] the items of an
    array from an item on.  Every call consumes a character, so a fuel above
    the length of the text is never exhausted. *)
Fixpoint scan (fuel : nat) (s : string) : Exc (value * string) :=
  match fuel with
  | 0 => Raise (OtherError "RecursionError" "maximum recursion depth exceeded")
  | S fuel =>
      match s with
      | "" => Raise expecting_value
      | String a s1 =>
          if (code a =? 34)%N then
            '(x, t) ← string_body s1; Ok (VStr x, t)
          else if (code a =? 123)%N then
            match skip_ws s1 with
            | String b t =>
                if (code b =? 125)%N then Ok (VDict ∅, t)
                else members fuel (String b t) ∅
            | "" => Raise (JSONDecodeError "Expecting property name enclosed in double quotes")
            end
          else if (code a =? 91)%N then
            match skip_ws s1 with
            | String b t =>
                if (code b =? 93)%N then Ok (VList [], t)
                else elements fuel (String b t) []
            | "" => Raise expecting_value
            end
          else if startswith "null" s then Ok (VNone, drop 4 s)
          else if startswith "true" s then Ok (VBool true, drop 4 s)
          else if startswith "false" s then Ok (VBool false, drop 5 s)
          else
            match number s with
            | Some r => Ok r
            | None =>
                if startswith "NaN" s then Ok (VFloat "NaN", drop 3 s)
                else if startswith "Infinity" s then Ok (VFloat "Infinity", drop 8 s)
                else if startswith "-Infinity" s then Ok (VFloat "-Infinity", drop 9 s)
                else Raise expecting_value
            end
      end
  end
with members (fuel : nat) (s : string) (acc : gmap string value) : Exc (value * string) :=
  match fuel with
  | 0 => Raise (OtherError "RecursionError" "maximum recursion depth exceeded")
  | S fuel =>
      match s with
      | String a s1 =>
          if (code a =? 34)%N then
            '(k, t) ← string_body s1;
            match skip_ws t with
            | String c t1 =>
                if (code c =? 58)%N then
                  '(v, t2) ← scan fuel (skip_ws t1);
                  match skip_ws t2 with
                  | String d t3 =>
                      if (code d =? 125)%N then Ok (VDict (<[k := v]> acc), t3)
                      else if (code d =? 44)%N then members fuel (skip_ws t3) (<[k := v]> acc)
                      else Raise (JSONDecodeError "Expecting ',' delimiter")
                  | "" => Raise (JSONDecodeError "Expecting ',' delimiter")
                  end
                else Raise (JSONDecodeError "Expecting ':' delimiter")
            | "" => Raise (JSONDecodeError "Expecting ':' delimiter")
            end
          else Raise (JSONDecodeError "Expecting property name enclosed in double quotes")
      | "" => Raise (JSONDecodeError "Expecting property name enclosed in double quotes")
      end
  end
with elements (fuel : nat) (s : string) (acc : list value) : Exc (value * string) :=
  match fuel with
  | 0 => Raise (OtherError "RecursionError" "maximum recursion depth exceeded")
  | S fuel =>
      '(v, t) ← scan fuel s;
      match skip_ws t with
      | String d t1 =>
          if (code d =? 93)%N then Ok (VList (acc ++ [v]), t1)
          else if (code d =? 44)%N then elements fuel (skip_ws t1) (acc ++ [v])
          else Raise (JSONDecodeError "Expecting ',' delimiter")
      | "" => Raise (JSONDecodeError "Expecting ',' delimiter")
      end
  end.

(** [json.loads s]: white space, one value, white space, end of text. *)
Definition loads (s : string) : Exc value :=
  '(v, t) ← scan (S (String.length s)) (skip_ws s);
  match skip_ws t with
  | "" => Ok v
  | _ => Raise (JSONDecodeError "Extra data")
  end.

End Json.

(** ** The module [gemini_client]

    The definitions keep the names and the order of the source.  Calls to
    [logger] and to [time.time] only write log records; they are left out. *)

Import Text.

(** *** Configuration records *)

(** A decimal literal [digits * 10^-places] of the source, such as [0.8]. *)
Record Decimal := { digits : Z; places : nat }.

Record GenerationConfig := {
  temperature : Decimal;
  top_p : Decimal;
  top_k : Z;
  max_output_tokens : Z
}.

Record SafetySetting := { category : string; threshold : string }.

(** The reply of the API: reading [response.text] gives the text or raises
    (a reply blocked by the safety filter has no text). *)
Record Response := { text : Exc string }.

(** A remote model, by the behaviour of its method [generate_content]: the
    call returns a reply or raises a transport or service error. *)
Definition GenerativeModel : Type :=
  string → GenerationConfig → list SafetySetting → Exc Response.

Record Client := {
  api_key : string;
  model : GenerativeModel;
  generation_config : GenerationConfig;
  safety_settings : list SafetySetting
}.

(** *** Names bound in the module *)

(** What a global name of the module is bound to: a value, or an object
    (module, class, logger, client) that has no method [get]. *)
Inductive object : Type :=
  | Val (v : value)
  | Obj (kind : string).

(** The global names of the module: its imports, the logger, the class and
    the singleton.  No built-in name is called [data] either. *)
Definition module_globals : gmap string object :=
  list_to_map [
    ("os", Obj "module"); ("logging", Obj "module"); ("json", Obj "module");
    ("time", Obj "module"); ("Dict", Obj "typing"); ("List", Obj "typing");
    ("Optional", Obj "typing"); ("Any", Obj "typing"); ("genai", Obj "module");
    ("datetime", Obj "class"); ("logger", Obj "Logger");
    ("UltraRobustGeminiClient", Obj "class"); ("gemini_client", Obj "instance")
  ].

(** Reading a name that is not local. *)
Definition load_global (globals : gmap string object) (name : string) : Exc object :=
  match globals !! name with
  | Some o => Ok o
  | None => Raise (NameError name)
  end.

(** The call [o.get(k, dflt)]. *)
Definition call_get (o : object) (k : string) (dflt : value) : Exc value :=
  match o with
  | Val (VDict d) => Ok (dict_get d k dflt)
  | _ => Raise (AttributeError "get")
  end.

(** *** Literals of the prompt *)

(** The opening of the prompt, line by line, from the triple quote of
    line 117 to line 130 of the source: the persona, the five systems and
    the heading of the project data. *)
Definition prompt_opening : list string := [
  "";
  "# ANÁLISE ULTRA-DETALHADA DE MERCADO - ARQV30 ENHANCED v2.0";
  "";
  "Você é o DIRETOR SUPREMO DE ANÁLISE DE MERCADO, um especialista de elite com 25+ anos de experiência em análise de mercado, psicologia do consumidor, estratégia de negócios e marketing digital avançado.";
  "";
  "Sua missão é gerar a ANÁLISE MAIS COMPLETA E PROFUNDA possível, implementando TODOS os sistemas avançados:";
  "";
  "1. **SISTEMA DE PROVAS VISUAIS INSTANTÂNEAS**";
  "2. **ARQUITETO DE DRIVERS MENTAIS**  ";
  "3. **PRÉ-PITCH INVISÍVEL**";
  "4. **ENGENHARIA ANTI-OBJEÇÃO**";
  "5. **ANCORAGEM PSICOLÓGICA**";
  "";
  "## DADOS DO PROJETO:"
].

(** The instructions that close the prompt, line by line, from the triple
    quote of line 148 to line 566 of the source: the schema template and the
    ten directives. *)
Definition prompt_instructions : list string := [
  "";
  "## INSTRUÇÕES PARA ANÁLISE ULTRA-ROBUSTA:";
  "";
  "Gere uma análise ULTRA-COMPLETA e estruturada em formato JSON implementando TODOS os sistemas. A estrutura deve ser EXATAMENTE:";
  "";
  "```json";
  "{";
  "  " +:+ q "avatar_ultra_detalhado" +:+ ": {";
  "    " +:+ q "nome_ficticio" +:+ ": " +:+ q "Nome representativo do avatar" +:+ ",";
  "    " +:+ q "perfil_demografico" +:+ ": {";
  "      " +:+ q "idade" +:+ ": " +:+ q "Faixa etária específica com justificativa" +:+ ",";
  "      " +:+ q "genero" +:+ ": " +:+ q "Distribuição por gênero com percentuais" +:+ ",";
  "      " +:+ q "renda" +:+ ": " +:+ q "Faixa de renda mensal detalhada com fonte" +:+ ",";
  "      " +:+ q "escolaridade" +:+ ": " +:+ q "Nível educacional predominante" +:+ ",";
  "      " +:+ q "localizacao" +:+ ": " +:+ q "Região geográfica específica" +:+ ",";
  "      " +:+ q "estado_civil" +:+ ": " +:+ q "Status relacionamento predominante" +:+ ",";
  "      " +:+ q "filhos" +:+ ": " +:+ q "Situação familiar típica" +:+ ",";
  "      " +:+ q "profissao" +:+ ": " +:+ q "Ocupações mais comuns";
  "    },";
  "    " +:+ q "perfil_psicografico" +:+ ": {";
  "      " +:+ q "personalidade" +:+ ": " +:+ q "Traços de personalidade dominantes detalhados" +:+ ",";
  "      " +:+ q "valores" +:+ ": " +:+ q "Valores e crenças principais com exemplos" +:+ ",";
  "      " +:+ q "interesses" +:+ ": " +:+ q "Hobbies e interesses específicos" +:+ ",";
  "      " +:+ q "estilo_vida" +:+ ": " +:+ q "Como vive o dia a dia detalhadamente" +:+ ",";
  "      " +:+ q "comportamento_compra" +:+ ": " +:+ q "Como toma decisões de compra passo a passo" +:+ ",";
  "      " +:+ q "influenciadores" +:+ ": " +:+ q "Quem influencia suas decisões e como" +:+ ",";
  "      " +:+ q "medos_profundos" +:+ ": " +:+ q "Medos mais íntimos relacionados ao nicho" +:+ ",";
  "      " +:+ q "aspiracoes_secretas" +:+ ": " +:+ q "O que realmente deseja mas não admite";
  "    },";
  "    " +:+ q "dores_viscerais" +:+ ": [";
  "      " +:+ q "Lista de 8-12 dores específicas, viscerais e emocionais que fazem o avatar acordar de madrugada preocupado";
  "    ],";
  "    " +:+ q "desejos_secretos" +:+ ": [";
  "      " +:+ q "Lista de 8-12 desejos profundos e aspirações que o avatar tem vergonha de admitir publicamente";
  "    ],";
  "    " +:+ q "objecoes_reais" +:+ ": [";
  "      " +:+ q "Lista de 8-10 objeções reais e específicas que o avatar faria, incluindo as não verbalizadas";
  "    ],";
  "    " +:+ q "jornada_emocional" +:+ ": {";
  "      " +:+ q "consciencia" +:+ ": " +:+ q "Como toma consciência do problema - gatilhos específicos" +:+ ",";
  "      " +:+ q "consideracao" +:+ ": " +:+ q "Como avalia soluções - critérios e processo mental" +:+ ",";
  "      " +:+ q "decisao" +:+ ": " +:+ q "Como decide pela compra - fatores decisivos" +:+ ",";
  "      " +:+ q "pos_compra" +:+ ": " +:+ q "Experiência pós-compra - expectativas e medos";
  "    },";
  "    " +:+ q "linguagem_interna" +:+ ": {";
  "      " +:+ q "frases_dor" +:+ ": [" +:+ q "Frases exatas que usa para expressar dores" +:+ "],";
  "      " +:+ q "frases_desejo" +:+ ": [" +:+ q "Frases exatas que usa para expressar desejos" +:+ "],";
  "      " +:+ q "metaforas_comuns" +:+ ": [" +:+ q "Metáforas que usa no dia a dia" +:+ "],";
  "      " +:+ q "vocabulario_especifico" +:+ ": [" +:+ q "Palavras e gírias específicas do nicho" +:+ "],";
  "      " +:+ q "tom_comunicacao" +:+ ": " +:+ q "Como se comunica - formal, informal, técnico";
  "    },";
  "    " +:+ q "gatilhos_mentais_especificos" +:+ ": [";
  "      " +:+ q "Lista de gatilhos psicológicos que funcionam especificamente com este avatar";
  "    ],";
  "    " +:+ q "resistencias_ocultas" +:+ ": [";
  "      " +:+ q "Resistências psicológicas não verbalizadas que impedem a compra";
  "    ],";
  "    " +:+ q "momento_ideal_abordagem" +:+ ": " +:+ q "Quando e como abordar este avatar para máxima receptividade";
  "  },";
  "  ";
  "  " +:+ q "drivers_mentais_customizados" +:+ ": [";
  "    {";
  "      " +:+ q "nome" +:+ ": " +:+ q "Nome impactante do driver (máximo 3 palavras)" +:+ ",";
  "      " +:+ q "gatilho_central" +:+ ": " +:+ q "A emoção ou lógica core que ativa" +:+ ",";
  "      " +:+ q "definicao_visceral" +:+ ": " +:+ q "Definição em 1-2 frases que capturam a essência" +:+ ",";
  "      " +:+ q "mecanica_psicologica" +:+ ": " +:+ q "Como funciona no cérebro do avatar" +:+ ",";
  "      " +:+ q "momento_instalacao" +:+ ": " +:+ q "Quando plantar durante a jornada do cliente" +:+ ",";
  "      " +:+ q "roteiro_ativacao" +:+ ": {";
  "        " +:+ q "pergunta_abertura" +:+ ": " +:+ q "Pergunta que expõe a ferida específica" +:+ ",";
  "        " +:+ q "historia_analogia" +:+ ": " +:+ q "História ou analogia de 3-5 frases que ilustra" +:+ ",";
  "        " +:+ q "metafora_visual" +:+ ": " +:+ q "Metáfora visual que ancora na memória" +:+ ",";
  "        " +:+ q "comando_acao" +:+ ": " +:+ q "Comando específico que direciona comportamento";
  "      },";
  "      " +:+ q "frases_ancoragem" +:+ ": [";
  "        " +:+ q "3-5 frases prontas para usar que reativam o driver";
  "      ],";
  "      " +:+ q "prova_logica" +:+ ": {";
  "        " +:+ q "estatistica" +:+ ": " +:+ q "Dado numérico que sustenta" +:+ ",";
  "        " +:+ q "caso_exemplo" +:+ ": " +:+ q "História real que comprova" +:+ ",";
  "        " +:+ q "demonstracao" +:+ ": " +:+ q "Como provar na prática";
  "      },";
  "      " +:+ q "loop_reforco" +:+ ": " +:+ q "Como reativar o driver em momentos posteriores";
  "    }";
  "  ],";
  "  ";
  "  " +:+ q "provas_visuais_sugeridas" +:+ ": [";
  "    {";
  "      " +:+ q "nome" +:+ ": " +:+ q "Nome da demonstração visual" +:+ ",";
  "      " +:+ q "conceito_alvo" +:+ ": " +:+ q "O que quer provar especificamente" +:+ ",";
  "      " +:+ q "experimento" +:+ ": " +:+ q "Descrição detalhada da demonstração física" +:+ ",";
  "      " +:+ q "analogia" +:+ ": " +:+ q "Como conecta com a vida do avatar" +:+ ",";
  "      " +:+ q "materiais" +:+ ": [" +:+ q "Lista específica de materiais necessários" +:+ "],";
  "      " +:+ q "roteiro_completo" +:+ ": " +:+ q "Script passo a passo da demonstração" +:+ ",";
  "      " +:+ q "variacoes" +:+ ": " +:+ q "Adaptações para diferentes formatos (online/presencial)" +:+ ",";
  "      " +:+ q "gestao_riscos" +:+ ": " +:+ q "Como lidar se a demonstração der errado";
  "    }";
  "  ],";
  "  ";
  "  " +:+ q "escopo_posicionamento" +:+ ": {";
  "    " +:+ q "posicionamento_mercado" +:+ ": " +:+ q "Posicionamento único e específico no mercado" +:+ ",";
  "    " +:+ q "proposta_valor_unica" +:+ ": " +:+ q "Proposta de valor irresistível e diferenciada" +:+ ",";
  "    " +:+ q "diferenciais_competitivos" +:+ ": [";
  "      " +:+ q "Lista de diferenciais únicos e defensáveis";
  "    ],";
  "    " +:+ q "mensagem_central" +:+ ": " +:+ q "Mensagem principal que resume tudo" +:+ ",";
  "    " +:+ q "tom_comunicacao" +:+ ": " +:+ q "Tom de voz ideal para este avatar" +:+ ",";
  "    " +:+ q "nicho_especifico" +:+ ": " +:+ q "Nicho mais específico recomendado" +:+ ",";
  "    " +:+ q "estrategia_oceano_azul" +:+ ": " +:+ q "Como criar mercado sem concorrência direta" +:+ ",";
  "    " +:+ q "ancoragem_preco" +:+ ": " +:+ q "Como ancorar o preço na mente do cliente";
  "  },";
  "  ";
  "  " +:+ q "analise_concorrencia_profunda" +:+ ": {";
  "    " +:+ q "concorrentes_diretos" +:+ ": [";
  "      {";
  "        " +:+ q "nome" +:+ ": " +:+ q "Nome do concorrente principal" +:+ ",";
  "        " +:+ q "analise_swot" +:+ ": {";
  "          " +:+ q "forcas" +:+ ": [" +:+ q "Principais forças específicas" +:+ "],";
  "          " +:+ q "fraquezas" +:+ ": [" +:+ q "Principais fraquezas exploráveis" +:+ "],";
  "          " +:+ q "oportunidades" +:+ ": [" +:+ q "Oportunidades que eles não veem" +:+ "],";
  "          " +:+ q "ameacas" +:+ ": [" +:+ q "Ameaças que representam para nós" +:+ "]";
  "        },";
  "        " +:+ q "estrategia_marketing" +:+ ": " +:+ q "Estratégia principal detalhada" +:+ ",";
  "        " +:+ q "posicionamento" +:+ ": " +:+ q "Como se posicionam no mercado" +:+ ",";
  "        " +:+ q "diferenciais" +:+ ": [" +:+ q "Principais diferenciais deles" +:+ "],";
  "        " +:+ q "vulnerabilidades" +:+ ": [" +:+ q "Pontos fracos específicos exploráveis" +:+ "],";
  "        " +:+ q "preco_estrategia" +:+ ": " +:+ q "Estratégia de precificação" +:+ ",";
  "        " +:+ q "share_mercado_estimado" +:+ ": " +:+ q "Participação estimada no mercado" +:+ ",";
  "        " +:+ q "pontos_ataque" +:+ ": [" +:+ q "Onde podemos atacá-los diretamente" +:+ "]";
  "      }";
  "    ],";
  "    " +:+ q "concorrentes_indiretos" +:+ ": [";
  "      " +:+ q "Lista de soluções alternativas que o cliente considera";
  "    ],";
  "    " +:+ q "gaps_oportunidade" +:+ ": [";
  "      " +:+ q "Oportunidades específicas não exploradas por ninguém";
  "    ],";
  "    " +:+ q "benchmarks_setor" +:+ ": " +:+ q "Benchmarks específicos e métricas do setor" +:+ ",";
  "    " +:+ q "estrategias_diferenciacao" +:+ ": [";
  "      " +:+ q "Como se diferenciar de forma defensável";
  "    ],";
  "    " +:+ q "analise_precos" +:+ ": " +:+ q "Análise detalhada da precificação do mercado" +:+ ",";
  "    " +:+ q "tendencias_competitivas" +:+ ": " +:+ q "Para onde a concorrência está indo";
  "  },";
  "  ";
  "  " +:+ q "estrategia_palavras_chave" +:+ ": {";
  "    " +:+ q "palavras_primarias" +:+ ": [";
  "      " +:+ q "8-12 palavras-chave principais com alto volume e intenção";
  "    ],";
  "    " +:+ q "palavras_secundarias" +:+ ": [";
  "      " +:+ q "15-25 palavras-chave secundárias complementares";
  "    ],";
  "    " +:+ q "palavras_cauda_longa" +:+ ": [";
  "      " +:+ q "20-30 palavras-chave de cauda longa específicas";
  "    ],";
  "    " +:+ q "palavras_negativas" +:+ ": [";
  "      " +:+ q "Palavras a evitar que atraem público errado";
  "    ],";
  "    " +:+ q "intencao_busca" +:+ ": {";
  "      " +:+ q "informacional" +:+ ": [" +:+ q "Palavras para conteúdo educativo" +:+ "],";
  "      " +:+ q "navegacional" +:+ ": [" +:+ q "Palavras para encontrar a marca" +:+ "],";
  "      " +:+ q "transacional" +:+ ": [" +:+ q "Palavras para conversão direta" +:+ "]";
  "    },";
  "    " +:+ q "estrategia_conteudo" +:+ ": " +:+ q "Como usar as palavras-chave estrategicamente" +:+ ",";
  "    " +:+ q "sazonalidade" +:+ ": " +:+ q "Variações sazonais das buscas no nicho" +:+ ",";
  "    " +:+ q "oportunidades_seo" +:+ ": " +:+ q "Oportunidades específicas de SEO identificadas";
  "  },";
  "  ";
  "  " +:+ q "sistema_anti_objecao" +:+ ": {";
  "    " +:+ q "objecoes_universais" +:+ ": {";
  "      " +:+ q "tempo" +:+ ": {";
  "        " +:+ q "objecao" +:+ ": " +:+ q "Não tenho tempo para isso" +:+ ",";
  "        " +:+ q "raiz_emocional" +:+ ": " +:+ q "Medo de mais uma responsabilidade que vai falhar" +:+ ",";
  "        " +:+ q "contra_ataque" +:+ ": " +:+ q "Técnica específica de neutralização" +:+ ",";
  "        " +:+ q "drives_mentais" +:+ ": [" +:+ q "Drivers específicos para usar" +:+ "],";
  "        " +:+ q "historias" +:+ ": [" +:+ q "Histórias específicas para contar" +:+ "],";
  "        " +:+ q "provas" +:+ ": [" +:+ q "Provas específicas para mostrar" +:+ "]";
  "      },";
  "      " +:+ q "dinheiro" +:+ ": {";
  "        " +:+ q "objecao" +:+ ": " +:+ q "Não tenho dinheiro agora" +:+ ",";
  "        " +:+ q "raiz_emocional" +:+ ": " +:+ q "Medo de desperdício e arrependimento" +:+ ",";
  "        " +:+ q "contra_ataque" +:+ ": " +:+ q "Técnica específica de neutralização" +:+ ",";
  "        " +:+ q "drives_mentais" +:+ ": [" +:+ q "Drivers específicos para usar" +:+ "],";
  "        " +:+ q "historias" +:+ ": [" +:+ q "Histórias específicas para contar" +:+ "],";
  "        " +:+ q "provas" +:+ ": [" +:+ q "Provas específicas para mostrar" +:+ "]";
  "      },";
  "      " +:+ q "confianca" +:+ ": {";
  "        " +:+ q "objecao" +:+ ": " +:+ q "Não confio que vai funcionar" +:+ ",";
  "        " +:+ q "raiz_emocional" +:+ ": " +:+ q "Medo de ser enganado novamente" +:+ ",";
  "        " +:+ q "contra_ataque" +:+ ": " +:+ q "Técnica específica de neutralização" +:+ ",";
  "        " +:+ q "drives_mentais" +:+ ": [" +:+ q "Drivers específicos para usar" +:+ "],";
  "        " +:+ q "historias" +:+ ": [" +:+ q "Histórias específicas para contar" +:+ "],";
  "        " +:+ q "provas" +:+ ": [" +:+ q "Provas específicas para mostrar" +:+ "]";
  "      }";
  "    },";
  "    " +:+ q "objecoes_ocultas" +:+ ": {";
  "      " +:+ q "autossuficiencia" +:+ ": " +:+ q "Análise e neutralização específica" +:+ ",";
  "      " +:+ q "sinal_fraqueza" +:+ ": " +:+ q "Análise e neutralização específica" +:+ ",";
  "      " +:+ q "medo_novo" +:+ ": " +:+ q "Análise e neutralização específica" +:+ ",";
  "      " +:+ q "prioridades_desequilibradas" +:+ ": " +:+ q "Análise e neutralização específica";
  "    },";
  "    " +:+ q "arsenal_emergencia" +:+ ": [";
  "      " +:+ q "Objeções de última hora e scripts específicos para lidar";
  "    ]";
  "  },";
  "  ";
  "  " +:+ q "pre_pitch_invisivel" +:+ ": {";
  "    " +:+ q "orquestracao_emocional" +:+ ": {";
  "      " +:+ q "sequencia_psicologica" +:+ ": [";
  "        {" +:+ q "fase" +:+ ": " +:+ q "QUEBRA" +:+ ", " +:+ q "objetivo" +:+ ": " +:+ q "Destruir ilusão atual" +:+ ", " +:+ q "tempo" +:+ ": " +:+ q "15%" +:+ ", " +:+ q "tecnicas" +:+ ": [" +:+ q "Técnicas específicas" +:+ "]},";
  "        {" +:+ q "fase" +:+ ": " +:+ q "EXPOSICAO" +:+ ", " +:+ q "objetivo" +:+ ": " +:+ q "Revelar ferida real" +:+ ", " +:+ q "tempo" +:+ ": " +:+ q "15%" +:+ ", " +:+ q "tecnicas" +:+ ": [" +:+ q "Técnicas específicas" +:+ "]},";
  "        {" +:+ q "fase" +:+ ": " +:+ q "INDIGNACAO" +:+ ", " +:+ q "objetivo" +:+ ": " +:+ q "Criar revolta produtiva" +:+ ", " +:+ q "tempo" +:+ ": " +:+ q "15%" +:+ ", " +:+ q "tecnicas" +:+ ": [" +:+ q "Técnicas específicas" +:+ "]},";
  "        {" +:+ q "fase" +:+ ": " +:+ q "VISLUMBRE" +:+ ", " +:+ q "objetivo" +:+ ": " +:+ q "Mostrar possível" +:+ ", " +:+ q "tempo" +:+ ": " +:+ q "15%" +:+ ", " +:+ q "tecnicas" +:+ ": [" +:+ q "Técnicas específicas" +:+ "]},";
  "        {" +:+ q "fase" +:+ ": " +:+ q "TENSAO" +:+ ", " +:+ q "objetivo" +:+ ": " +:+ q "Amplificar gap" +:+ ", " +:+ q "tempo" +:+ ": " +:+ q "15%" +:+ ", " +:+ q "tecnicas" +:+ ": [" +:+ q "Técnicas específicas" +:+ "]},";
  "        {" +:+ q "fase" +:+ ": " +:+ q "NECESSIDADE" +:+ ", " +:+ q "objetivo" +:+ ": " +:+ q "Tornar inevitável" +:+ ", " +:+ q "tempo" +:+ ": " +:+ q "25%" +:+ ", " +:+ q "tecnicas" +:+ ": [" +:+ q "Técnicas específicas" +:+ "]}";
  "      ],";
  "      " +:+ q "drivers_por_fase" +:+ ": " +:+ q "Mapeamento específico de drivers por fase" +:+ ",";
  "      " +:+ q "narrativas_conectoras" +:+ ": " +:+ q "Como conectar as fases fluidamente";
  "    },";
  "    " +:+ q "justificacao_logica" +:+ ": {";
  "      " +:+ q "numeros_irrefutaveis" +:+ ": [" +:+ q "Dados específicos que não podem ser contestados" +:+ "],";
  "      " +:+ q "calculos_roi" +:+ ": " +:+ q "Cálculos específicos de retorno conservadores" +:+ ",";
  "      " +:+ q "demonstracoes" +:+ ": " +:+ q "Demonstrações passo a passo específicas" +:+ ",";
  "      " +:+ q "cases_metricas" +:+ ": " +:+ q "Cases reais com métricas específicas" +:+ ",";
  "      " +:+ q "garantias" +:+ ": " +:+ q "Garantias específicas que eliminam risco";
  "    },";
  "    " +:+ q "roteiro_completo" +:+ ": " +:+ q "Script completo e detalhado do pré-pitch" +:+ ",";
  "    " +:+ q "adaptacoes_formato" +:+ ": {";
  "      " +:+ q "webinario" +:+ ": " +:+ q "Adaptação específica para webinário" +:+ ",";
  "      " +:+ q "evento_presencial" +:+ ": " +:+ q "Adaptação específica para evento" +:+ ",";
  "      " +:+ q "cpl" +:+ ": " +:+ q "Adaptação específica para CPL" +:+ ",";
  "      " +:+ q "lives" +:+ ": " +:+ q "Adaptação específica para lives";
  "    }";
  "  },";
  "  ";
  "  " +:+ q "metricas_performance_ultra" +:+ ": {";
  "    " +:+ q "kpis_primarios" +:+ ": [";
  "      {";
  "        " +:+ q "metrica" +:+ ": " +:+ q "Nome específico da métrica" +:+ ",";
  "        " +:+ q "objetivo" +:+ ": " +:+ q "Meta numérica específica" +:+ ",";
  "        " +:+ q "benchmark_setor" +:+ ": " +:+ q "Benchmark específico do setor" +:+ ",";
  "        " +:+ q "frequencia_medicao" +:+ ": " +:+ q "Com que frequência medir" +:+ ",";
  "        " +:+ q "formula_calculo" +:+ ": " +:+ q "Fórmula exata de cálculo" +:+ ",";
  "        " +:+ q "fonte_dados" +:+ ": " +:+ q "De onde vem os dados";
  "      }";
  "    ],";
  "    " +:+ q "kpis_secundarios" +:+ ": [";
  "      " +:+ q "KPIs de apoio específicos para o nicho";
  "    ],";
  "    " +:+ q "metas_especificas" +:+ ": {";
  "      " +:+ q "cpl_meta" +:+ ": " +:+ q "Custo por lead ideal específico" +:+ ",";
  "      " +:+ q "cac_meta" +:+ ": " +:+ q "Custo de aquisição ideal específico" +:+ ",";
  "      " +:+ q "ltv_meta" +:+ ": " +:+ q "Lifetime value esperado específico" +:+ ",";
  "      " +:+ q "roi_meta" +:+ ": " +:+ q "ROI esperado específico" +:+ ",";
  "      " +:+ q "payback_meta" +:+ ": " +:+ q "Tempo de payback esperado";
  "    },";
  "    " +:+ q "funil_conversao_detalhado" +:+ ": {";
  "      " +:+ q "topo_funil" +:+ ": {";
  "        " +:+ q "objetivo" +:+ ": " +:+ q "Objetivo específico desta etapa" +:+ ",";
  "        " +:+ q "estrategias" +:+ ": [" +:+ q "Estratégias específicas detalhadas" +:+ "],";
  "        " +:+ q "conteudos" +:+ ": [" +:+ q "Tipos específicos de conteúdo" +:+ "],";
  "        " +:+ q "metricas" +:+ ": [" +:+ q "Métricas específicas a acompanhar" +:+ "],";
  "        " +:+ q "taxa_conversao_esperada" +:+ ": " +:+ q "Taxa específica esperada";
  "      },";
  "      " +:+ q "meio_funil" +:+ ": {";
  "        " +:+ q "objetivo" +:+ ": " +:+ q "Objetivo específico desta etapa" +:+ ",";
  "        " +:+ q "estrategias" +:+ ": [" +:+ q "Estratégias específicas detalhadas" +:+ "],";
  "        " +:+ q "conteudos" +:+ ": [" +:+ q "Tipos específicos de conteúdo" +:+ "],";
  "        " +:+ q "metricas" +:+ ": [" +:+ q "Métricas específicas a acompanhar" +:+ "],";
  "        " +:+ q "taxa_conversao_esperada" +:+ ": " +:+ q "Taxa específica esperada";
  "      },";
  "      " +:+ q "fundo_funil" +:+ ": {";
  "        " +:+ q "objetivo" +:+ ": " +:+ q "Objetivo específico desta etapa" +:+ ",";
  "        " +:+ q "estrategias" +:+ ": [" +:+ q "Estratégias específicas detalhadas" +:+ "],";
  "        " +:+ q "conteudos" +:+ ": [" +:+ q "Tipos específicos de conteúdo" +:+ "],";
  "        " +:+ q "metricas" +:+ ": [" +:+ q "Métricas específicas a acompanhar" +:+ "],";
  "        " +:+ q "taxa_conversao_esperada" +:+ ": " +:+ q "Taxa específica esperada";
  "      }";
  "    },";
  "    " +:+ q "projecoes_financeiras" +:+ ": {";
  "      " +:+ q "cenario_conservador" +:+ ": {";
  "        " +:+ q "vendas_mensais" +:+ ": " +:+ q "Número específico de vendas" +:+ ",";
  "        " +:+ q "receita_mensal" +:+ ": " +:+ q "Receita específica esperada" +:+ ",";
  "        " +:+ q "lucro_mensal" +:+ ": " +:+ q "Lucro específico esperado" +:+ ",";
  "        " +:+ q "roi" +:+ ": " +:+ q "ROI específico esperado" +:+ ",";
  "        " +:+ q "premissas" +:+ ": [" +:+ q "Premissas específicas deste cenário" +:+ "]";
  "      },";
  "      " +:+ q "cenario_realista" +:+ ": {";
  "        " +:+ q "vendas_mensais" +:+ ": " +:+ q "Número específico de vendas" +:+ ",";
  "        " +:+ q "receita_mensal" +:+ ": " +:+ q "Receita específica esperada" +:+ ",";
  "        " +:+ q "lucro_mensal" +:+ ": " +:+ q "Lucro específico esperado" +:+ ",";
  "        " +:+ q "roi" +:+ ": " +:+ q "ROI específico esperado" +:+ ",";
  "        " +:+ q "premissas" +:+ ": [" +:+ q "Premissas específicas deste cenário" +:+ "]";
  "      },";
  "      " +:+ q "cenario_otimista" +:+ ": {";
  "        " +:+ q "vendas_mensais" +:+ ": " +:+ q "Número específico de vendas" +:+ ",";
  "        " +:+ q "receita_mensal" +:+ ": " +:+ q "Receita específica esperada" +:+ ",";
  "        " +:+ q "lucro_mensal" +:+ ": " +:+ q "Lucro específico esperado" +:+ ",";
  "        " +:+ q "roi" +:+ ": " +:+ q "ROI específico esperado" +:+ ",";
  "        " +:+ q "premissas" +:+ ": [" +:+ q "Premissas específicas deste cenário" +:+ "]";
  "      }";
  "    }";
  "  },";
  "  ";
  "  " +:+ q "plano_acao_ultra_detalhado" +:+ ": {";
  "    " +:+ q "fase_1_fundacao" +:+ ": {";
  "      " +:+ q "duracao" +:+ ": " +:+ q "Duração específica em dias" +:+ ",";
  "      " +:+ q "objetivos" +:+ ": [" +:+ q "Objetivos específicos e mensuráveis" +:+ "],";
  "      " +:+ q "atividades" +:+ ": [";
  "        {";
  "          " +:+ q "atividade" +:+ ": " +:+ q "Nome da atividade" +:+ ",";
  "          " +:+ q "descricao" +:+ ": " +:+ q "Descrição detalhada" +:+ ",";
  "          " +:+ q "responsavel" +:+ ": " +:+ q "Quem executa" +:+ ",";
  "          " +:+ q "prazo" +:+ ": " +:+ q "Prazo específico" +:+ ",";
  "          " +:+ q "recursos" +:+ ": [" +:+ q "Recursos necessários" +:+ "],";
  "          " +:+ q "entregaveis" +:+ ": [" +:+ q "O que deve ser entregue" +:+ "]";
  "        }";
  "      ],";
  "      " +:+ q "investimento_estimado" +:+ ": " +:+ q "Valor específico necessário" +:+ ",";
  "      " +:+ q "resultados_esperados" +:+ ": [" +:+ q "Resultados específicos esperados" +:+ "],";
  "      " +:+ q "marcos_importantes" +:+ ": [" +:+ q "Marcos específicos a celebrar" +:+ "],";
  "      " +:+ q "riscos_mitigacao" +:+ ": [" +:+ q "Riscos e como mitigar" +:+ "]";
  "    },";
  "    " +:+ q "fase_2_lancamento" +:+ ": {";
  "      " +:+ q "duracao" +:+ ": " +:+ q "Duração específica em dias" +:+ ",";
  "      " +:+ q "objetivos" +:+ ": [" +:+ q "Objetivos específicos e mensuráveis" +:+ "],";
  "      " +:+ q "atividades" +:+ ": [";
  "        {";
  "          " +:+ q "atividade" +:+ ": " +:+ q "Nome da atividade" +:+ ",";
  "          " +:+ q "descricao" +:+ ": " +:+ q "Descrição detalhada" +:+ ",";
  "          " +:+ q "responsavel" +:+ ": " +:+ q "Quem executa" +:+ ",";
  "          " +:+ q "prazo" +:+ ": " +:+ q "Prazo específico" +:+ ",";
  "          " +:+ q "recursos" +:+ ": [" +:+ q "Recursos necessários" +:+ "],";
  "          " +:+ q "entregaveis" +:+ ": [" +:+ q "O que deve ser entregue" +:+ "]";
  "        }";
  "      ],";
  "      " +:+ q "investimento_estimado" +:+ ": " +:+ q "Valor específico necessário" +:+ ",";
  "      " +:+ q "resultados_esperados" +:+ ": [" +:+ q "Resultados específicos esperados" +:+ "],";
  "      " +:+ q "marcos_importantes" +:+ ": [" +:+ q "Marcos específicos a celebrar" +:+ "],";
  "      " +:+ q "riscos_mitigacao" +:+ ": [" +:+ q "Riscos e como mitigar" +:+ "]";
  "    },";
  "    " +:+ q "fase_3_crescimento" +:+ ": {";
  "      " +:+ q "duracao" +:+ ": " +:+ q "Duração específica em dias" +:+ ",";
  "      " +:+ q "objetivos" +:+ ": [" +:+ q "Objetivos específicos e mensuráveis" +:+ "],";
  "      " +:+ q "atividades" +:+ ": [";
  "        {";
  "          " +:+ q "atividade" +:+ ": " +:+ q "Nome da atividade" +:+ ",";
  "          " +:+ q "descricao" +:+ ": " +:+ q "Descrição detalhada" +:+ ",";
  "          " +:+ q "responsavel" +:+ ": " +:+ q "Quem executa" +:+ ",";
  "          " +:+ q "prazo" +:+ ": " +:+ q "Prazo específico" +:+ ",";
  "          " +:+ q "recursos" +:+ ": [" +:+ q "Recursos necessários" +:+ "],";
  "          " +:+ q "entregaveis" +:+ ": [" +:+ q "O que deve ser entregue" +:+ "]";
  "        }";
  "      ],";
  "      " +:+ q "investimento_estimado" +:+ ": " +:+ q "Valor específico necessário" +:+ ",";
  "      " +:+ q "resultados_esperados" +:+ ": [" +:+ q "Resultados específicos esperados" +:+ "],";
  "      " +:+ q "marcos_importantes" +:+ ": [" +:+ q "Marcos específicos a celebrar" +:+ "],";
  "      " +:+ q "riscos_mitigacao" +:+ ": [" +:+ q "Riscos e como mitigar" +:+ "]";
  "    },";
  "    " +:+ q "cronograma_semanal" +:+ ": " +:+ q "Cronograma detalhado semana a semana" +:+ ",";
  "    " +:+ q "recursos_necessarios" +:+ ": {";
  "      " +:+ q "humanos" +:+ ": [" +:+ q "Recursos humanos específicos" +:+ "],";
  "      " +:+ q "financeiros" +:+ ": [" +:+ q "Recursos financeiros específicos" +:+ "],";
  "      " +:+ q "tecnologicos" +:+ ": [" +:+ q "Recursos tecnológicos específicos" +:+ "],";
  "      " +:+ q "materiais" +:+ ": [" +:+ q "Recursos materiais específicos" +:+ "]";
  "    }";
  "  },";
  "  ";
  "  " +:+ q "insights_exclusivos_ultra" +:+ ": [";
  "    " +:+ q "Lista de 15-20 insights únicos, específicos e ultra-valiosos baseados na análise profunda do nicho, avatar e mercado";
  "  ],";
  "  ";
  "  " +:+ q "sistema_monitoramento" +:+ ": {";
  "    " +:+ q "dashboards" +:+ ": [";
  "      {";
  "        " +:+ q "nome" +:+ ": " +:+ q "Nome do dashboard" +:+ ",";
  "        " +:+ q "metricas" +:+ ": [" +:+ q "Métricas específicas" +:+ "],";
  "        " +:+ q "frequencia_atualizacao" +:+ ": " +:+ q "Frequência de atualização" +:+ ",";
  "        " +:+ q "responsavel" +:+ ": " +:+ q "Quem monitora";
  "      }";
  "    ],";
  "    " +:+ q "alertas" +:+ ": [";
  "      {";
  "        " +:+ q "metrica" +:+ ": " +:+ q "Métrica monitorada" +:+ ",";
  "        " +:+ q "condicao" +:+ ": " +:+ q "Condição que dispara alerta" +:+ ",";
  "        " +:+ q "acao" +:+ ": " +:+ q "Ação a ser tomada" +:+ ",";
  "        " +:+ q "responsavel" +:+ ": " +:+ q "Quem recebe o alerta";
  "      }";
  "    ],";
  "    " +:+ q "relatorios" +:+ ": [";
  "      {";
  "        " +:+ q "nome" +:+ ": " +:+ q "Nome do relatório" +:+ ",";
  "        " +:+ q "conteudo" +:+ ": " +:+ q "O que contém" +:+ ",";
  "        " +:+ q "frequencia" +:+ ": " +:+ q "Frequência de geração" +:+ ",";
  "        " +:+ q "destinatarios" +:+ ": [" +:+ q "Quem recebe" +:+ "]";
  "      }";
  "    ],";
  "    " +:+ q "otimizacoes" +:+ ": [";
  "      " +:+ q "Processos específicos de otimização contínua";
  "    ]";
  "  }";
  "}";
  "```";
  "";
  "## DIRETRIZES ULTRA-CRÍTICAS:";
  "";
  "1. **PROFUNDIDADE EXTREMA**: Cada seção deve ter profundidade de consultor de R$ 50.000/hora";
  "2. **ULTRA-ESPECÍFICO**: Use dados concretos, números, percentuais, exemplos reais do nicho";
  "3. **IMPLEMENTAÇÃO COMPLETA**: Implemente TODOS os sistemas dos documentos anexados";
  "4. **ACIONABILIDADE TOTAL**: Cada insight deve ser imediatamente implementável";
  "5. **INOVAÇÃO CONSTANTE**: Identifique oportunidades que ninguém mais viu no nicho";
  "6. **COERÊNCIA ABSOLUTA**: Todos os dados devem ser perfeitamente consistentes";
  "7. **LINGUAGEM DE ELITE**: Tom de consultor premium especializado no nicho";
  "8. **INSIGHTS ÚNICOS**: Gere insights que só uma análise desta profundidade pode revelar";
  "9. **SISTEMAS INTEGRADOS**: Todos os sistemas devem trabalhar em sinergia perfeita";
  "10. **RESULTADOS GARANTIDOS**: Cada recomendação deve ter alta probabilidade de sucesso";
  "";
  "**CRÍTICO**: Esta análise será usada para decisões de investimento de milhões de reais. A qualidade deve ser IMPECÁVEL e ULTRA-DETALHADA.";
  "";
  "**IMPORTANTE**: Gere APENAS o JSON válido e ultra-completo, sem texto adicional antes ou depois. Cada campo deve estar preenchido com informações específicas, detalhadas e acionáveis."
].

(** The header of the section that carries the search context. *)
Definition search_header : string := "## CONTEXTO DE PESQUISA PROFUNDA:".

(** The placeholder of an absent field. *)
Definition placeholder : string := "Não informado".

(** The fields of the request, with the label each one has in the prompt. *)
Definition request_fields : list (string * string) := [
  ("segmento", "- **Segmento**: ");
  ("produto", "- **Produto/Serviço**: ");
  ("publico", "- **Público-Alvo**: ");
  ("preco", "- **Preço**: R$ ");
  ("concorrentes", "- **Concorrentes**: ");
  ("objetivo_receita", "- **Objetivo de Receita**: R$ ");
  ("orcamento_marketing", "- **Orçamento Marketing**: R$ ");
  ("prazo_lancamento", "- **Prazo de Lançamento**: ");
  ("dados_adicionais", "- **Dados Adicionais**: ")
].

Section Client.

(** The services of the runtime. *)
Variable json_loads : string → Exc value.
(** [repr] of a float or of a container. *)
Variable py_repr : value → string.
(** [genai.GenerativeModel(name)]. *)
Variable genai_GenerativeModel : string → GenerativeModel.
(** The global names at the time of the call. *)
Variable globals : gmap string object.
(** [datetime.now().isoformat()]. *)
Variable now : string.

(** What an f-string writes for a value: [format(v, '')]. *)
Definition py_str (v : value) : string :=
  match v with
  | VStr s => s
  | VInt z => pretty z
  | VBool true => "True"
  | VBool false => "False"
  | VNone => "None"
  | _ => py_repr v
  end.

(** [UltraRobustGeminiClient.__init__], on the environment of the
    process.  [genai.configure] records the key and [genai.GenerativeModel]
    names the remote model; neither calls the API. *)
Definition __init__ (environ : gmap string string) : Exc Client :=
  let api_key := environ !! "GEMINI_API_KEY" in
  if negb (truthy api_key) then Raise (ValueError "GEMINI_API_KEY não configurada")
  else
    Ok {|
      api_key := default "" api_key;
      model := genai_GenerativeModel "gemini-1.5-flash";
      generation_config := {|
        temperature := {| digits := 8; places := 1 |};
        top_p := {| digits := 9; places := 1 |};
        top_k := 40;
        max_output_tokens := 32768
      |};
      safety_settings := [
        {| category := "HARM_CATEGORY_HARASSMENT"; threshold := "BLOCK_MEDIUM_AND_ABOVE" |};
        {| category := "HARM_CATEGORY_HATE_SPEECH"; threshold := "BLOCK_MEDIUM_AND_ABOVE" |};
        {| category := "HARM_CATEGORY_SEXUALLY_EXPLICIT"; threshold := "BLOCK_MEDIUM_AND_ABOVE" |};
        {| category := "HARM_CATEGORY_DANGEROUS_CONTENT"; threshold := "BLOCK_MEDIUM_AND_ABOVE" |}
      ]
    |}.

(** The connectivity test: one call with a fixed prompt. *)
Definition test_connection (self : Client) : Exc bool :=
  try_except
    (response ← model self "Teste de conexão. Responda apenas: OK"
                  (generation_config self) (safety_settings self);
     reply ← text response;
     Ok (py_in "OK" reply))
    (λ e, Ok false).

(** One line of the project data: the label, then the field or the
    placeholder. *)
Definition field_line (data : gmap string value) (f : string * string) : string :=
  f.2 +:+ py_str (dict_get data f.1 (VStr placeholder)).

(** The prompt: the f-string of lines 117 to 140 (the opening, then one
    line for each field of the request), the two optional sections, and the
    instructions. *)
Definition _build_ultra_comprehensive_prompt (data : gmap string value)
    (search_context attachments_context : option string) : string :=
  let prompt := lines (prompt_opening ++ map (field_line data) request_fields) in
  let prompt :=
    if truthy search_context then
      prompt +:+ (nl +:+ "## CONTEXTO DE PESQUISA PROFUNDA:" +:+ nl
                  +:+ default "" search_context +:+ nl)
    else prompt in
  let prompt :=
    if truthy attachments_context then
      prompt +:+ (nl +:+ "## CONTEXTO DOS ANEXOS:" +:+ nl
                  +:+ default "" attachments_context +:+ nl)
    else prompt in
  prompt +:+ lines prompt_instructions.

(** The emergency fallback: a fixed record, but for the segment of the
    request in two places and the time of the call. *)
Definition _generate_emergency_fallback (data : gmap string value) : value :=
  py_dict [
      ("avatar_ultra_detalhado", py_dict [
        ("nome_ficticio", VStr "Empreendedor Ambicioso");
        ("perfil_demografico", py_dict [
          ("idade", VStr "30-45 anos - faixa de maior maturidade profissional");
          ("genero", VStr "Misto com leve predominância masculina");
          ("renda", VStr "R$ 8.000 - R$ 30.000 - classe média alta");
          ("escolaridade", VStr "Superior completo - alta escolaridade");
          ("localizacao", VStr "Grandes centros urbanos brasileiros");
          ("estado_civil", VStr "Maioria casada ou em relacionamento sério");
          ("filhos", VStr "Muitos têm filhos - motivação familiar forte");
          ("profissao", VStr "Empreendedores e profissionais liberais")
        ]);
        ("perfil_psicografico", py_dict [
          ("personalidade", VStr "Ambiciosos, determinados, orientados a resultados, mas frequentemente ansiosos");
          ("valores", VStr "Liberdade, reconhecimento, segurança financeira, impacto positivo");
          ("interesses", VStr "Crescimento pessoal, tecnologia, investimentos, networking");
          ("estilo_vida", VStr "Rotina intensa, sempre conectados, buscam eficiência");
          ("comportamento_compra", VStr "Pesquisam muito, decidem por lógica mas compram por emoção");
          ("influenciadores", VStr "Outros empreendedores de sucesso, mentores reconhecidos");
          ("medos_profundos", VStr "Fracasso público, instabilidade financeira, estagnação");
          ("aspiracoes_secretas", VStr "Ser autoridade reconhecida, ter liberdade total, deixar legado")
        ]);
        ("dores_viscerais", VList [
          VStr "Trabalhar excessivamente sem ver crescimento proporcional nos resultados";
          VStr "Sentir-se sempre correndo atrás, nunca conseguindo ficar à frente da concorrência";
          VStr "Ver competidores menores crescendo mais rapidamente";
          VStr "Não conseguir se desconectar do trabalho, mesmo nos momentos de descanso";
          VStr "Viver com medo constante de que tudo pode desmoronar a qualquer momento";
          VStr "Desperdiçar potencial em tarefas operacionais em vez de estratégicas";
          VStr "Sacrificar tempo de qualidade com família por causa das demandas do negócio";
          VStr "Estar sempre no limite financeiro apesar de ter um bom faturamento";
          VStr "Não ter controle real sobre os resultados e dependências externas";
          VStr "Sentir vergonha de admitir que não sabe como crescer de forma sustentável"
        ]);
        ("desejos_secretos", VList [
          VStr "Ser reconhecido como uma autoridade respeitada e influente no seu mercado";
          VStr "Ter um negócio que funcione perfeitamente sem sua presença constante";
          VStr "Ganhar dinheiro de forma passiva através de sistemas automatizados";
          VStr "Ser convidado para palestrar em grandes eventos e conferências do setor";
          VStr "Ter liberdade total de horários, localização e decisões";
          VStr "Deixar um legado significativo que impacte positivamente milhares de pessoas";
          VStr "Alcançar segurança financeira suficiente para nunca mais se preocupar com dinheiro";
          VStr "Ser visto pelos pares como alguém que realmente 'chegou lá'";
          VStr "Ter recursos e conhecimento para ajudar outros a alcançarem o sucesso";
          VStr "Ter tempo e recursos para realizar sonhos pessoais que foram adiados"
        ]);
        ("objecoes_reais", VList [
          VStr "Já tentei várias estratégias diferentes e nenhuma funcionou como prometido";
          VStr "Não tenho tempo suficiente para implementar mais uma nova estratégia complexa";
          VStr "Meu nicho é muito específico e diferente, essas táticas não vão funcionar para mim";
          VStr "Preciso ver resultados rápidos e concretos, não posso esperar meses para ver retorno";
          VStr "Não tenho uma equipe grande o suficiente para executar todas essas ações";
          VStr "Já invisto muito em marketing e publicidade sem ver o retorno esperado";
          VStr "Meus clientes são diferentes e mais exigentes, eles não compram por impulso";
          VStr "Não tenho conhecimento técnico suficiente para implementar sistemas complexos";
          VStr "E se eu investir mais dinheiro e não der certo? Não posso me dar ao luxo de perder mais"
        ]);
        ("jornada_emocional", py_dict [
          ("consciencia", VStr "Percebe estagnação quando compara resultados com concorrentes ou quando metas não são atingidas");
          ("consideracao", VStr "Pesquisa intensivamente, consome muito conteúdo educativo, busca cases de sucesso similares ao seu");
          ("decisao", VStr "Decide baseado na combinação de confiança no método + urgência da situação + prova social convincente");
          ("pos_compra", VStr "Quer implementar rapidamente mas tem receio de não conseguir executar corretamente sozinho")
        ]);
        ("linguagem_interna", py_dict [
          ("frases_dor", VList [
            VStr "Estou trabalhando muito mas parece que não saio do lugar";
            VStr "Sinto que estou desperdiçando todo o meu potencial";
            VStr "Preciso urgentemente de um sistema que realmente funcione"
          ]);
          ("frases_desejo", VList [
            VStr "Quero ter um negócio que funcione sem depender de mim o tempo todo";
            VStr "Sonho em ter verdadeira liberdade financeira e de tempo";
            VStr "Quero ser reconhecido como uma autoridade respeitada no meu mercado"
          ]);
          ("metaforas_comuns", VList [
            VStr "Corrida de hamster na roda";
            VStr "Apagar incêndio constantemente";
            VStr "Remar contra a maré"
          ]);
          ("vocabulario_especifico", VList [
            VStr "ROI";
            VStr "conversão";
            VStr "funil de vendas";
            VStr "lead qualificado";
            VStr "ticket médio";
            VStr "LTV";
            VStr "CAC"
          ]);
          ("tom_comunicacao", VStr "Direto e objetivo, aprecia dados concretos e provas tangíveis")
        ]);
        ("gatilhos_mentais_especificos", VList [
          VStr "Urgência temporal bem fundamentada";
          VStr "Escassez de oportunidade real";
          VStr "Prova social de pares do mesmo nível";
          VStr "Autoridade reconhecida no mercado";
          VStr "Medo da perda de oportunidades";
          VStr "Reciprocidade e valor antecipado"
        ]);
        ("resistencias_ocultas", VList [
          VStr "Medo profundo de sair da zona de conforto conhecida";
          VStr "Síndrome do impostor que questiona se merece o sucesso";
          VStr "Perfeccionismo paralisante que impede ação";
          VStr "Desconfiança em métodos que parecem 'fáceis demais'"
        ]);
        ("momento_ideal_abordagem", VStr "Quando está frustrado com resultados atuais ou identifica clara oportunidade de crescimento")
      ]);
      ("escopo_posicionamento", py_dict [
        ("posicionamento_mercado", VStr "Solução premium para empreendedores que querem resultados rápidos e sustentáveis");
        ("proposta_valor_unica", VStr "Transforme seu negócio com metodologia comprovada e suporte especializado");
        ("diferenciais_competitivos", VList [
          VStr "Metodologia exclusiva testada e aprovada";
          VStr "Suporte personalizado e acompanhamento contínuo";
          VStr "Resultados mensuráveis e garantidos"
        ]);
        ("mensagem_central", VStr "Pare de trabalhar NO negócio e comece a trabalhar PELO negócio");
        ("tom_comunicacao", VStr "Direto, confiante, baseado em resultados");
        ("nicho_especifico", dict_get data "segmento" (VStr "Empreendedorismo Digital"));
        ("estrategia_oceano_azul", VStr "Criar categoria própria focada em implementação prática");
        ("ancoragem_preco", VStr "Investimento que se paga em 30 dias")
      ]);
      ("insights_exclusivos_ultra", VList [
        VStr ("O mercado de " +:+ py_str (dict_get data "segmento" (VStr "empreendedorismo")) +:+ " está em transformação acelerada");
        VStr "Existe lacuna entre ferramentas disponíveis e conhecimento para implementá-las";
        VStr "A maior dor não é falta de informação, mas excesso sem direcionamento";
        VStr "Empreendedores pagam premium por simplicidade e implementação guiada";
        VStr "Fator decisivo é confiança no método + urgência da situação";
        VStr "Prova social de pares vale mais que depoimentos genéricos";
        VStr "Objeção real não é preço, é medo de mais uma tentativa frustrada";
        VStr "Sistemas automatizados são 'santo graal' mas poucos sabem implementar";
        VStr "Jornada de compra é longa mas decisão é emocional e rápida";
        VStr "Conteúdo gratuito é porta de entrada, venda acontece na demonstração";
        VStr "Mercado saturado de teoria, faminto por implementação prática";
        VStr "Diferencial está na execução, não na estratégia";
        VStr "Clientes querem ser guiados passo a passo";
        VStr "ROI deve ser demonstrado em semanas para gerar confiança";
        VStr "Análise gerada em modo de emergência - execute nova análise para resultados completos"
      ]);
      ("metadata_gemini", py_dict [
        ("generated_at", VStr now);
        ("model", VStr "emergency_fallback");
        ("version", VStr "2.0.0");
        ("note", VStr "Análise gerada em modo de emergência devido a erro na IA principal")
      ])
    ].

(** The record that [_extract_structured_analysis] builds, for the value
    [segmento] of [data.get('segmento', 'empreendedorismo')]. *)
Definition extracted_analysis (segmento : value) : value :=
  py_dict [
      ("avatar_ultra_detalhado", py_dict [
        ("nome_ficticio", VStr "Avatar Personalizado");
        ("perfil_demografico", py_dict [
          ("idade", VStr "25-45 anos - faixa de maior poder aquisitivo e necessidade de crescimento");
          ("genero", VStr "60% masculino, 40% feminino - predominância masculina no empreendedorismo");
          ("renda", VStr "R$ 5.000 - R$ 25.000 - classe média alta com ambições de crescimento");
          ("escolaridade", VStr "Superior completo - 80% têm graduação ou pós-graduação");
          ("localizacao", VStr "Grandes centros urbanos - SP, RJ, MG, RS, PR");
          ("estado_civil", VStr "70% casados ou em união estável");
          ("filhos", VStr "60% têm filhos - motivação adicional para crescer");
          ("profissao", VStr "Empreendedores, profissionais liberais, executivos")
        ]);
        ("perfil_psicografico", py_dict [
          ("personalidade", VStr "Ambiciosos, determinados, mas frequentemente sobrecarregados e ansiosos");
          ("valores", VStr "Liberdade financeira, reconhecimento profissional, segurança familiar");
          ("interesses", VStr "Tecnologia, investimentos, desenvolvimento pessoal, networking");
          ("estilo_vida", VStr "Rotina intensa, trabalham muito, buscam eficiência e resultados");
          ("comportamento_compra", VStr "Pesquisam muito, comparam opções, decidem por lógica mas compram por emoção");
          ("influenciadores", VStr "Outros empreendedores de sucesso, mentores, especialistas reconhecidos");
          ("medos_profundos", VStr "Fracassar publicamente, perder dinheiro, não conseguir sustentar a família");
          ("aspiracoes_secretas", VStr "Ser reconhecido como autoridade, ter liberdade total, impactar milhares")
        ]);
        ("dores_viscerais", VList [
          VStr "Trabalhar 12+ horas por dia sem ver crescimento proporcional";
          VStr "Sentir que está sempre correndo atrás, nunca na frente";
          VStr "Ver concorrentes menores crescendo mais rápido";
          VStr "Não conseguir se desconectar do trabalho nem nos finais de semana";
          VStr "Ter medo constante de que tudo pode desmoronar a qualquer momento";
          VStr "Sentir que está desperdiçando seu potencial em tarefas operacionais";
          VStr "Não ter tempo de qualidade com família por causa do trabalho";
          VStr "Estar sempre no limite financeiro apesar de faturar bem";
          VStr "Sentir que não tem controle real sobre os resultados do negócio";
          VStr "Ter vergonha de admitir que não sabe como crescer de forma sustentável"
        ]);
        ("desejos_secretos", VList [
          VStr "Ser reconhecido como uma autoridade respeitada no mercado";
          VStr "Ter um negócio que funcione sem sua presença constante";
          VStr "Ganhar dinheiro enquanto dorme através de sistemas automatizados";
          VStr "Ser convidado para palestrar em grandes eventos do setor";
          VStr "Ter liberdade total de horários e localização";
          VStr "Deixar um legado que impacte milhares de pessoas";
          VStr "Ter segurança financeira suficiente para nunca mais se preocupar";
          VStr "Ser visto pelos pares como alguém que 'chegou lá'";
          VStr "Poder ajudar outros a alcançarem o sucesso";
          VStr "Ter tempo e recursos para realizar sonhos pessoais adiados"
        ]);
        ("objecoes_reais", VList [
          VStr "Já tentei várias coisas e não funcionaram";
          VStr "Não tenho tempo para implementar mais uma estratégia";
          VStr "Meu nicho é muito específico, isso não vai funcionar para mim";
          VStr "Preciso ver resultados rápidos, não posso esperar meses";
          VStr "Não tenho equipe suficiente para executar";
          VStr "Já gasto muito com marketing e não vejo retorno";
          VStr "Meus clientes são diferentes, eles não compram assim";
          VStr "Não tenho conhecimento técnico para implementar";
          VStr "E se eu investir e não der certo? Não posso me dar ao luxo de perder dinheiro"
        ]);
        ("jornada_emocional", py_dict [
          ("consciencia", VStr "Percebe que está estagnado quando vê outros crescendo ou quando bate metas financeiras");
          ("consideracao", VStr "Pesquisa intensivamente, consome muito conteúdo, busca cases de sucesso similares");
          ("decisao", VStr "Decide baseado em confiança no método + urgência da situação + prova social");
          ("pos_compra", VStr "Quer implementar rapidamente mas tem medo de não conseguir executar corretamente")
        ]);
        ("linguagem_interna", py_dict [
          ("frases_dor", VList [
            VStr "Estou trabalhando muito mas não estou saindo do lugar";
            VStr "Sinto que estou desperdiçando meu potencial";
            VStr "Preciso de um sistema que funcione de verdade"
          ]);
          ("frases_desejo", VList [
            VStr "Quero ter um negócio que funcione sem mim";
            VStr "Sonho em ter liberdade financeira e de tempo";
            VStr "Quero ser reconhecido como autoridade no meu mercado"
          ]);
          ("metaforas_comuns", VList [VStr "Corrida de hamster"; VStr "Apagar incêndio"; VStr "Remar contra a maré"]);
          ("vocabulario_especifico", VList [VStr "ROI"; VStr "conversão"; VStr "funil"; VStr "lead"; VStr "ticket médio"; VStr "LTV"; VStr "CAC"]);
          ("tom_comunicacao", VStr "Direto, objetivo, gosta de dados e provas")
        ]);
        ("gatilhos_mentais_especificos", VList [
          VStr "Urgência temporal";
          VStr "Escassez de oportunidade";
          VStr "Prova social de pares";
          VStr "Autoridade reconhecida";
          VStr "Medo da perda";
          VStr "Reciprocidade"
        ]);
        ("resistencias_ocultas", VList [
          VStr "Medo de sair da zona de conforto";
          VStr "Síndrome do impostor";
          VStr "Perfeccionismo paralisante";
          VStr "Desconfiança em métodos 'fáceis'"
        ]);
        ("momento_ideal_abordagem", VStr "Quando está frustrado com resultados atuais ou vê oportunidade de crescimento")
      ]);
      ("drivers_mentais_customizados", VList [
        py_dict [
          ("nome", VStr "Hamster Dourado");
          ("gatilho_central", VStr "Frustração com trabalho sem resultado proporcional");
          ("definicao_visceral", VStr "Você trabalha muito mas gira na mesma roda, como um hamster numa gaiola de ouro");
          ("mecanica_psicologica", VStr "Ativa a dor da estagnação disfarçada de progresso");
          ("momento_instalacao", VStr "Início da apresentação, ao falar sobre rotina atual");
          ("roteiro_ativacao", py_dict [
            ("pergunta_abertura", VStr "Você se sente um hamster numa roda de ouro?");
            ("historia_analogia", VStr "É como ter um Ferrari preso no trânsito - todo esse potencial, mas você não sai do lugar");
            ("metafora_visual", VStr "Imagine acordar sabendo que seu negócio trabalhou a noite toda sem você");
            ("comando_acao", VStr "Pare de girar a roda. Comece a construir alavancas.")
          ]);
          ("frases_ancoragem", VList [
            VStr "Hamster dourado não é sucesso, é escravidão sofisticada";
            VStr "Sua roda está girando, mas você não está saindo do lugar";
            VStr "Trabalho duro sem sistema é só teatro de produtividade"
          ]);
          ("prova_logica", py_dict [
            ("estatistica", VStr "80% dos empreendedores trabalham mais de 60h/semana");
            ("caso_exemplo", VStr "João faturava R$ 50k mas trabalhava 80h/semana até descobrir automação");
            ("demonstracao", VStr "Mostrar diferença entre receita por hora trabalhada")
          ]);
          ("loop_reforco", VStr "Toda vez que se sentir sobrecarregado, lembre: hamster ou empresário?")
        ]
      ]);
      ("provas_visuais_sugeridas", VList [
        py_dict [
          ("nome", VStr "Demonstração da Roda do Hamster");
          ("conceito_alvo", VStr "Mostrar que trabalho sem sistema é ineficiente");
          ("experimento", VStr "Usar uma roda de hamster real e mostrar movimento sem progresso");
          ("analogia", VStr "Como o negócio atual - muito movimento, pouco avanço");
          ("materiais", VList [VStr "Roda de hamster"; VStr "Cronômetro"; VStr "Régua"]);
          ("roteiro_completo", VStr "1. Mostrar hamster correndo 2. Medir distância = zero 3. Comparar com esteira que vai a algum lugar");
          ("variacoes", VStr "Online: usar animação; Presencial: roda física");
          ("gestao_riscos", VStr "Se não funcionar, usar metáfora verbal reforçada")
        ]
      ]);
      ("insights_exclusivos_ultra", VList [
        VStr ("O mercado de " +:+ py_str segmento +:+ " está passando por uma transformação digital acelerada");
        VStr "Existe uma lacuna entre ferramentas disponíveis e conhecimento para implementá-las";
        VStr "A maior dor não é falta de informação, mas excesso de informação sem direcionamento";
        VStr "Empreendedores pagam premium por simplicidade e implementação guiada";
        VStr "O fator decisivo de compra é confiança no método + urgência da situação atual";
        VStr "Prova social de pares vale mais que depoimentos de clientes diferentes";
        VStr "A objeção real não é preço, é medo de mais uma tentativa frustrada";
        VStr "Sistemas automatizados são vistos como 'santo graal' mas poucos sabem implementar";
        VStr "A jornada de compra é longa (3-6 meses) mas a decisão é emocional e rápida";
        VStr "Conteúdo educativo gratuito é porta de entrada, mas venda acontece na demonstração prática";
        VStr "Mercado está saturado de teoria, faminto por implementação prática";
        VStr "Diferencial competitivo está na execução, não na estratégia";
        VStr "Clientes querem ser guiados passo a passo, não apenas informados";
        VStr "ROI deve ser demonstrado em semanas, não meses, para gerar confiança";
        VStr "Comunidade e networking são fatores de retenção mais importantes que o produto"
      ])
    ].

(** The body of the [try] of [_extract_structured_analysis]: the record is
    built, which reads the name [data], then the raw text is attached. *)
Definition extract_body (text : string) : Exc value :=
  data ← load_global globals "data";
  segmento ← call_get data "segmento" (VStr "empreendedorismo");
  let analysis := extracted_analysis segmento in
  analysis ← setitem analysis "raw_response" (VStr (py_prefix 2000 text));
  Ok analysis.

(** The heuristic extraction: the body above inside a [try] whose handler
    returns the emergency fallback of the empty request. *)
Definition _extract_structured_analysis (text : string) : Exc value :=
  try_except (extract_body text) (λ e, Ok (_generate_emergency_fallback ∅)).

(** The metadata that a structured parse attaches. *)
Definition metadata_gemini : value :=
  py_dict [
    ("generated_at", VStr now);
    ("model", VStr "gemini-1.5-flash");
    ("version", VStr "2.0.0");
    ("analysis_type", VStr "ultra_detailed");
    ("systems_implemented", VList [
      VStr "drivers_mentais";
      VStr "provas_visuais";
      VStr "pre_pitch_invisivel";
      VStr "anti_objecao";
      VStr "ancoragem_psicologica"
    ])
  ].

(** The reply without its fenced code block, if it has one. *)
Definition strip_markdown (response_text : string) : string :=
  if py_in "```json" response_text then
    let start := (py_find response_text "```json" + 7)%Z in
    let end_ := py_rfind response_text "```" in
    py_strip (py_slice response_text start end_)
  else if py_in "```" response_text then
    let start := (py_find response_text "```" + 3)%Z in
    let end_ := py_rfind response_text "```" in
    py_strip (py_slice response_text start end_)
  else response_text.

(** The parser.  The [except] clause names [json.JSONDecodeError] only, and
    its handler is given the text without the fence, to which
    [response_text] has been rebound. *)
Definition _parse_ultra_detailed_response (response_text : string) : Exc value :=
  let response_text := strip_markdown response_text in
  try_except_on is_JSONDecodeError
    (analysis ← json_loads response_text;
     analysis ← setitem analysis "metadata_gemini" metadata_gemini;
     Ok analysis)
    (λ e, _extract_structured_analysis response_text).

(** The analysis: the prompt, one call, then the parser on a reply with
    text; everything inside one [try] whose handler returns the emergency
    fallback of the request. *)
Definition generate_ultra_detailed_analysis (self : Client)
    (analysis_data : gmap string value)
    (search_context attachments_context : option string) : Exc value :=
  try_except
    (let prompt :=
       _build_ultra_comprehensive_prompt analysis_data search_context attachments_context in
     response ← model self prompt (generation_config self) (safety_settings self);
     reply ← text response;
     match reply with
     | String _ _ => reply ← text response; _parse_ultra_detailed_response reply
     | "" => Raise (PlainException "Resposta vazia do Gemini")
     end)
    (λ e, Ok (_generate_emergency_fallback analysis_data)).

(** The module-level singleton: the client, or [None] when its
    construction raises. *)
Definition gemini_client (environ : gmap string string) : Exc (option Client) :=
  try_except
    (client ← __init__ environ; Ok (Some client))
    (λ e, Ok None).

End Client.

(** ** Replies and collaborators used in examples *)

(** A text inside a fenced code block, opened with and without the tag. *)
Definition fenced_json (s : string) : string :=
  "```json" +:+ nl +:+ s +:+ nl +:+ "```".

Definition fenced (s : string) : string :=
  "```" +:+ nl +:+ s +:+ nl +:+ "```".

(** The JSON text of the object with the one key [foo] and the value 1. *)
Definition foo_json : string := "{" +:+ q "foo" +:+ ":1}".

(** The requests of the examples hold strings only, for which [repr] is not
    called. *)
Definition repr_not_called : value → string := λ _, "".

(** A model whose call raises, and a model that replies with a text. *)
Definition raising_model (e : exn) : GenerativeModel := λ _ _ _, Raise e.
Definition replying_model (reply : string) : GenerativeModel :=
  λ _ _ _, Ok {| text := Ok reply |}.

(** A model whose reply has no text to read. *)
Definition blocked_model (e : exn) : GenerativeModel :=
  λ _ _ _, Ok {| text := Raise e |}.

(** The environment with the credential set to [key]. *)
Definition environ_with (key : string) : gmap string string :=
  {[ "GEMINI_API_KEY" := key ]}.

(** The client built around the model [m]. *)
Definition client_of (m : GenerativeModel) : Client :=
  {| api_key := "key";
     model := m;
     generation_config := {|
       temperature := {| digits := 8; places := 1 |};
       top_p := {| digits := 9; places := 1 |};
       top_k := 40;
       max_output_tokens := 32768
     |};
     safety_settings := [] |}.

(** The section names of the emergency fallback. *)
Definition fallback_sections : gset string :=
  {[ "avatar_ultra_detalhado"; "escopo_posicionamento";
     "insights_exclusivos_ultra"; "metadata_gemini" ]}.

(** The section names of the record of the heuristic extraction. *)
Definition extracted_sections : gset string :=
  {[ "avatar_ultra_detalhado"; "drivers_mentais_customizados";
     "provas_visuais_sugeridas"; "insights_exclusivos_ultra"; "raw_response" ]}.

(** ** Notions of the further properties *)

(** A value that takes a string key. *)
Definition is_dict (v : value) : bool :=
  match v with
  | VDict _ => true
  | _ => false
  end.

(** The tag [record["metadata_gemini"]["model"]], by which a caller tells a
    record of the model from a fallback. *)
Definition model_tag (record : value) : option value :=
  section record "metadata_gemini" ≫= λ metadata, section metadata "model".

(** The niche [record["escopo_posicionamento"]["nicho_especifico"]]. *)
Definition nicho_especifico (record : value) : option value :=
  section record "escopo_posicionamento" ≫= λ scope, section scope "nicho_especifico".

(** The global names of a module that binds [data] to a dictionary. *)
Definition globals_with_data (d : gmap string value) : gmap string object :=
  <["data" := Val (VDict d)]> module_globals.

(** The result of the analysis comes from the model: the call returned a
    reply with a text that is not empty and decodes, without its fence, to
    an object. *)
Definition decoded_reply (json_loads : string → Exc value) (self : Client)
    (prompt : string) : Prop :=
  ∃ response reply X,
    model self prompt (generation_config self) (safety_settings self) = Ok response ∧
    text response = Ok reply ∧ reply ≠ "" ∧
    json_loads (strip_markdown reply) = Ok (VDict X).

(** [len(s)]: the number of characters of [s], one for each byte that does
    not continue an encoded character. *)
Fixpoint py_len (s : string) : nat :=
  match s with
  | "" => 0
  | String c s' => (if continuation c then 0 else 1) + py_len s'
  end.

(** A context as the builder reads it: an empty one counts as absent. *)
Definition given (context : option string) : option string :=
  if truthy context then context else None.

(** A tactic for two dictionary displays with the same keys: it compares
    them pair by pair. *)
Ltac same_pairs :=
  repeat (constructor;
          [split; [reflexivity | first [right; reflexivity | left; reflexivity]] |]);
  constructor.

(** * Facts about text *)

Module TextFacts.
Import Text.

Lemma app_nil_l (a : string) : "" +:+ a = a.
Proof. reflexivity. Qed.

Lemma app_cons (x : ascii) (a b : string) : String x a +:+ b = String x (a +:+ b).
Proof. reflexivity. Qed.

Lemma app_assoc (a b c : string) : (a +:+ b) +:+ c = a +:+ (b +:+ c).
Proof. induction a as [|x a IH]; [done |]. by rewrite !app_cons, IH. Qed.

Lemma app_nil_r (a : string) : a +:+ "" = a.
Proof. induction a as [|x a IH]; [done |]. by rewrite app_cons, IH. Qed.

Lemma length_app (a b : string) :
  String.length (a +:+ b) = String.length a + String.length b.
Proof. induction a as [|x a IH]; [done |]. rewrite app_cons. simpl. by rewrite IH. Qed.

Lemma lines_app (l1 l2 : list string) : lines (l1 ++ l2) = lines l1 +:+ lines l2.
Proof.
  induction l1 as [|l l1 IH]; [done |].
  change (lines ((l :: l1) ++ l2)) with (l +:+ nl +:+ lines (l1 ++ l2)).
  change (lines (l :: l1)) with (l +:+ nl +:+ lines l1).
  by rewrite IH, !app_assoc.
Qed.

(** ** Prefixes and search *)

Lemma startswith_app (p s : string) : startswith p (p +:+ s) = true.
Proof.
  induction p as [|a p IH]; [done |].
  rewrite app_cons. simpl. by rewrite Ascii.eqb_refl.
Qed.

Lemma startswith_inv (p s : string) :
  startswith p s = true → ∃ t, s = p +:+ t.
Proof.
  revert s. induction p as [|a p IH]; intros s H; simpl in *.
  - by exists s.
  - destruct s as [|b s]; [done |].
    destruct (Ascii.eqb_spec a b) as [->|]; [| done].
    destruct (IH _ H) as [t ->]. by exists t.
Qed.

Lemma startswith_extend (p s t : string) :
  startswith p s = true → startswith p (s +:+ t) = true.
Proof.
  intros [u ->]%startswith_inv. rewrite app_assoc. apply startswith_app.
Qed.

Lemma find_from_app (sub a b : string) (i : nat) :
  is_Some (find_from sub (a +:+ sub +:+ b) i).
Proof.
  revert i. induction a as [|x a IH]; intros i.
  - rewrite app_nil_l.
    assert (startswith sub (sub +:+ b) = true) as E by apply startswith_app.
    destruct (sub +:+ b); simpl; rewrite E; by eexists.
  - rewrite app_cons. cbn [find_from].
    destruct (startswith sub (String x (a +:+ sub +:+ b))); [by eexists | apply IH].
Qed.

Lemma find_from_inv (sub s : string) (i j : nat) :
  find_from sub s i = Some j →
  ∃ a b, s = a +:+ sub +:+ b ∧ j = i + String.length a.
Proof.
  revert i. induction s as [|x s IH]; intros i; cbn [find_from].
  - destruct (startswith sub "") eqn:E; [| done].
    intros [= <-]. apply startswith_inv in E as [t ->].
    exists "", t. simpl. split; [done | lia].
  - destruct (startswith sub (String x s)) eqn:E.
    + intros [= <-]. apply startswith_inv in E as [t ->].
      exists "", t. simpl. split; [done | lia].
    + intros (a & b & -> & ->)%IH.
      exists (String x a), b. simpl. split; [done | lia].
Qed.

(** [sub in s] holds exactly when [s] is some text, then [sub], then some
    text. *)
Lemma py_in_spec (sub s : string) :
  py_in sub s = true ↔ ∃ a b, s = a +:+ sub +:+ b.
Proof.
  unfold py_in. split.
  - destruct (find_from sub s 0) eqn:E; [| done].
    intros _. apply find_from_inv in E as (a & b & -> & _). by exists a, b.
  - intros (a & b & ->).
    by destruct (find_from_app sub a b 0) as [j ->].
Qed.

Lemma py_in_app (sub a b : string) : py_in sub (a +:+ sub +:+ b) = true.
Proof. apply py_in_spec. by exists a, b. Qed.

Lemma py_in_prefix (sub s : string) : py_in sub (sub +:+ s) = true.
Proof. apply (py_in_app sub ""). Qed.

(** The first position found is 0 when the text starts with [sub]. *)
Lemma py_find_prefix (sub s : string) : py_find (sub +:+ s) sub = 0%Z.
Proof.
  unfold py_find.
  assert (startswith sub (sub +:+ s) = true) as E by apply startswith_app.
  destruct (sub +:+ s); simpl; by rewrite E.
Qed.

(** ** Counting occurrences *)

Lemma startswith_sep (sub a b : string) (c : ascii) :
  has_char c sub = false →
  startswith sub (a +:+ String c b) = startswith sub a.
Proof.
  revert a. induction sub as [|h sub IH]; intros a H; [done |].
  simpl in H. destruct (Ascii.eqb_spec c h) as [|Hne]; [done |].
  destruct a as [|x a]; rewrite ?app_nil_l, ?app_cons; simpl.
  - destruct (Ascii.eqb_spec h c); [congruence | done].
  - destruct (Ascii.eqb h x); [by apply IH | done].
Qed.

Lemma find_from_cons (sub : string) (x : ascii) (s : string) (i : nat) :
  find_from sub (String x s) i =
  if startswith sub (String x s) then Some i else find_from sub s (S i).
Proof. reflexivity. Qed.

Lemma find_from_none_shift (sub s : string) (i j : nat) :
  find_from sub s i = None → find_from sub s j = None.
Proof.
  revert i j. induction s as [|x s IH]; intros i j; cbn [find_from].
  - by destruct (startswith sub "").
  - destruct (startswith sub (String x s)); [done | apply IH].
Qed.

(** A search that fails in [a] goes on after a character that [sub] does
    not have. *)
Lemma find_from_sep (sub a b : string) (c : ascii) (i : nat) :
  has_char c sub = false →
  find_from sub a i = None →
  find_from sub (a +:+ String c b) i = find_from sub (String c b) (i + String.length a).
Proof.
  intros H. revert i. induction a as [|x a IH]; intros i.
  - intros _. rewrite app_nil_l. simpl. by rewrite Nat.add_0_r.
  - rewrite app_cons, (find_from_cons sub x a), (find_from_cons sub x (a +:+ _)).
    rewrite <- (app_cons x a), (startswith_sep _ _ _ _ H).
    destruct (startswith sub (String x a)); [done |].
    intros E. rewrite (IH _ E). f_equal.
    change (String.length (String x a)) with (S (String.length a)). lia.
Qed.

Lemma occurrences_cons (sub : string) (x : ascii) (s : string) :
  occurrences sub (String x s) =
  (if startswith sub (String x s) then 1 else 0) + occurrences sub s.
Proof. reflexivity. Qed.

(** No occurrence runs across a character that [sub] does not have. *)
Lemma occurrences_sep (sub a b : string) (c : ascii) :
  has_char c sub = false →
  occurrences sub (a +:+ String c b) =
  occurrences sub a + occurrences sub (String c b) - occurrences sub "".
Proof.
  intros H.
  assert (occurrences sub "" ≤ occurrences sub (String c b))%nat as Hle.
  { rewrite occurrences_cons. rewrite <- (app_nil_l (String c b)) at 1.
    rewrite (startswith_sep _ _ _ _ H). simpl. lia. }
  induction a as [|x a IH].
  - rewrite app_nil_l. lia.
  - rewrite app_cons, (occurrences_cons sub x (a +:+ _)), (occurrences_cons sub x a), IH.
    rewrite <- (app_cons x a), (startswith_sep _ _ _ _ H). lia.
Qed.

Lemma occurrences_sep_ne (h : ascii) (t a b : string) (c : ascii) :
  has_char c (String h t) = false →
  occurrences (String h t) (a +:+ String c b) =
  occurrences (String h t) a + occurrences (String h t) b.
Proof.
  intros H. rewrite occurrences_sep by done.
  simpl in H. destruct (Ascii.eqb_spec c h) as [|Hne]; [done |].
  rewrite (occurrences_cons _ c b). simpl.
  destruct (Ascii.eqb_spec h c); [congruence |]. lia.
Qed.

(** The occurrences in a text made of lines, for a [sub] without line
    feed: those of each line. *)
Lemma occurrences_lines (h : ascii) (t : string) (ls : list string) :
  has_char (ascii_of_nat 10) (String h t) = false →
  occurrences (String h t) (lines ls) =
  sum_list_with (occurrences (String h t)) ls.
Proof.
  intros H. induction ls as [|l ls IH]; [done |].
  cbn [lines sum_list_with]. unfold nl. rewrite app_cons, app_nil_l.
  rewrite occurrences_sep_ne by done. by rewrite IH.
Qed.

(** No occurrence starts in a text that does not have the first character
    of [sub]. *)
Lemma occurrences_label (h : ascii) (t lit s : string) :
  has_char h lit = false →
  occurrences (String h t) (lit +:+ s) = occurrences (String h t) s.
Proof.
  induction lit as [|x lit IH]; intros H; [done |].
  simpl in H. destruct (Ascii.eqb_spec h x) as [|Hne]; [done |].
  rewrite app_cons. cbn [occurrences startswith].
  destruct (Ascii.eqb_spec h x); [congruence |]. by rewrite IH.
Qed.

End TextFacts.

(** * Facts about slices and white space *)

Module SliceFacts.
Import Text TextFacts.

Lemma drop_length_app (a b : string) : drop (String.length a) (a +:+ b) = b.
Proof. induction a as [|x a IH]; [done |]. rewrite app_cons. by simpl. Qed.

Lemma take_length_app (a b : string) : take (String.length a) (a +:+ b) = a.
Proof. induction a as [|x a IH]; [by destruct b |]. rewrite app_cons. simpl. by rewrite IH. Qed.

Lemma startswith_length (p s : string) :
  startswith p s = true → String.length p ≤ String.length s.
Proof. intros [t ->]%startswith_inv. rewrite length_app. lia. Qed.

(** A position found from the right leaves room for [sub]. *)
Lemma rfind_from_bound (sub t : string) (i j : nat) :
  rfind_from sub t i = Some j →
  i ≤ j ∧ j + String.length sub ≤ i + String.length t.
Proof.
  revert i. induction t as [|x t IH]; intros i; cbn [rfind_from].
  - destruct (startswith sub "") eqn:E; [| done].
    intros [= <-]. apply startswith_length in E. lia.
  - destruct (rfind_from sub t (S i)) eqn:R.
    + intros [= <-]. apply IH in R. simpl. lia.
    + destruct (startswith sub (String x t)) eqn:E; [| done].
      intros [= <-]. apply startswith_length in E. lia.
Qed.

Lemma rfind_from_self (sub : string) (i : nat) : rfind_from sub sub i = Some i.
Proof.
  destruct sub as [|x sub]; [done |]. cbn [rfind_from].
  destruct (rfind_from (String x sub) sub (S i)) eqn:R.
  - apply rfind_from_bound in R. simpl in R. lia.
  - rewrite <- (app_nil_r (String x sub)) at 2. by rewrite startswith_app.
Qed.

(** The last position of [sub] in a text that ends with it. *)
Lemma rfind_from_suffix (sub s : string) (i : nat) :
  rfind_from sub (s +:+ sub) i = Some (i + String.length s).
Proof.
  revert i. induction s as [|x s IH]; intros i.
  - rewrite app_nil_l, rfind_from_self. f_equal. simpl. lia.
  - rewrite app_cons. cbn [rfind_from]. rewrite IH. f_equal. simpl. lia.
Qed.

Lemma py_rfind_suffix (sub s : string) :
  py_rfind (s +:+ sub) sub = Z.of_nat (String.length s).
Proof. unfold py_rfind. by rewrite rfind_from_suffix. Qed.

(** The slice between two positions inside the text. *)
Lemma py_slice_middle (a b c : string) :
  py_slice (a +:+ b +:+ c)
    (Z.of_nat (String.length a)) (Z.of_nat (String.length a + String.length b)) = b.
Proof.
  assert (∀ len i : nat, i ≤ len → clip (Z.of_nat len) (Z.of_nat i) = i) as Hclip.
  { intros len i Hi. unfold clip.
    destruct (Z.ltb_spec (Z.of_nat i) 0); lia. }
  unfold py_slice. rewrite !length_app, !Hclip by lia.
  replace (String.length a + String.length b - String.length a)
    with (String.length b) by lia.
  by rewrite drop_length_app, take_length_app.
Qed.

Lemma rev_onto_app (a b acc : string) :
  rev_onto (a +:+ b) acc = rev_onto b (rev_onto a acc).
Proof.
  revert acc. induction a as [|x a IH]; intros acc; [done |].
  rewrite app_cons. simpl. apply IH.
Qed.

Lemma rev_snoc (s : string) (c : ascii) : rev (s +:+ String c "") = String c (rev s).
Proof. unfold rev. by rewrite rev_onto_app. Qed.

Lemma lstrip_unfold (a : ascii) (s1 : string) :
  lstrip (String a s1) =
  if space1 a then lstrip s1
  else match s1 with
       | "" => String a s1
       | String b s2 =>
           if space2 a b then lstrip s2
           else match s2 with
                | "" => String a s1
                | String c s3 => if space3 a b c then lstrip s3 else String a s1
                end
       end.
Proof. reflexivity. Qed.

Lemma space2_nl (a : ascii) : space2 a (ascii_of_nat 10) = false.
Proof. unfold space2. simpl. by rewrite andb_false_r. Qed.

Lemma space3_nl (a b : ascii) : space3 a b (ascii_of_nat 10) = false.
Proof.
  unfold space3. cbn [nat_of_ascii ascii_of_nat].
  replace (nat_of_ascii (ascii_of_nat 10)) with 10 by reflexivity.
  simpl. by rewrite !andb_false_r.
Qed.

(** Stripping on the left a text that ends with a line feed: the line feed
    stays, unless all of the text goes. *)
Lemma lstrip_snoc_nl (s : string) :
  lstrip (s +:+ nl) = lstrip s +:+ nl ∨ (lstrip (s +:+ nl) = "" ∧ lstrip s = "").
Proof.
  remember (String.length s) as n eqn:Hn.
  revert s Hn. induction (lt_wf n) as [n _ IH]. intros s ->.
  destruct s as [|a s1]; [by right |].
  rewrite app_cons, !lstrip_unfold.
  destruct (space1 a).
  { apply (IH (String.length s1)); [simpl; lia | done]. }
  destruct s1 as [|b s2].
  { left. rewrite app_nil_l. unfold nl. by rewrite space2_nl. }
  rewrite app_cons.
  destruct (space2 a b).
  { apply (IH (String.length s2)); [simpl; lia | done]. }
  destruct s2 as [|c s3].
  { left. rewrite app_nil_l. unfold nl. by rewrite space3_nl. }
  rewrite app_cons.
  destruct (space3 a b c); [| by left].
  apply (IH (String.length s3)); [simpl; lia | done].
Qed.

Lemma lstrip_nl (s : string) : lstrip (nl +:+ s) = lstrip s.
Proof. reflexivity. Qed.

Lemma rstrip_snoc_nl (s : string) : rstrip (s +:+ nl) = rstrip s.
Proof. unfold rstrip, nl. by rewrite rev_snoc. Qed.

(** [strip] does not see the line feeds around a text. *)
Lemma py_strip_nl (s : string) : py_strip (nl +:+ s +:+ nl) = py_strip s.
Proof.
  unfold py_strip. rewrite lstrip_nl.
  destruct (lstrip_snoc_nl s) as [-> | [-> ->]]; [| done].
  apply rstrip_snoc_nl.
Qed.

End SliceFacts.

(** * Facts about the module *)

Import TextFacts SliceFacts.

(** ** Exceptions *)

Lemma try_except_returns {A} (body : Exc A) (handler : exn → Exc A) :
  (∀ e, returns (handler e)) → returns (try_except body handler).
Proof. intros H. destruct body as [a|e]; [by exists a | apply H]. Qed.

Lemma try_except_raise {A} (body : Exc A) (handler : exn → Exc A) (e : exn) :
  body = Raise e → try_except body handler = handler e.
Proof. by intros ->. Qed.

Lemma try_except_ok {A} (body : Exc A) (handler : exn → Exc A) (a : A) :
  body = Ok a → try_except body handler = Ok a.
Proof. by intros ->. Qed.

Lemma bind_ok {A B} (c : Exc A) (f : A → Exc B) (a : A) :
  c = Ok a → (c ≫= f) = f a.
Proof. by intros ->. Qed.

Lemma bind_raise {A B} (c : Exc A) (f : A → Exc B) (e : exn) :
  c = Raise e → (c ≫= f) = Raise e.
Proof. by intros ->. Qed.

(** ** Sections of the records *)

(** The sections of a dictionary display are its keys. *)
Lemma sections_py_dict (kvs : list (string * value)) :
  sections (py_dict kvs) = list_to_set kvs.*1.
Proof.
  unfold py_dict, sections.
  enough (∀ m : gmap string value,
            dom (fold_left (λ m kv, <[kv.1 := kv.2]> m) kvs m) =
            dom m ∪ list_to_set kvs.*1) as ->.
  { rewrite dom_empty_L. set_solver. }
  induction kvs as [|kv kvs IH]; intros m; simpl.
  - set_solver.
  - rewrite IH, dom_insert_L. set_solver.
Qed.

Lemma section_absent (v : value) (k : string) :
  k ∉ sections v → section v k = None.
Proof.
  destruct v; try done. simpl. intros H. by apply not_elem_of_dom.
Qed.

(** Storing under a key of a dictionary adds the key and nothing else. *)
Lemma setitem_dict (v : value) (k : string) (x : value) :
  (∃ m, v = VDict m) →
  ∃ r, setitem v k x = Ok r ∧
       sections r = {[ k ]} ∪ sections v ∧
       section r k = Some x.
Proof.
  intros [m ->]. eexists. split; [reflexivity |]. split.
  - simpl. apply dom_insert_L.
  - simpl. apply lookup_insert_eq.
Qed.

Lemma fallback_has_sections (py_repr : value → string) (now : string)
    (data : gmap string value) :
  sections (_generate_emergency_fallback py_repr now data) = fallback_sections.
Proof.
  unfold _generate_emergency_fallback. rewrite sections_py_dict.
  cbn [fmap list_fmap fst list_to_set]. unfold fallback_sections. set_solver.
Qed.

Lemma extracted_has_sections (py_repr : value → string) (segmento : value) :
  sections (extracted_analysis py_repr segmento) =
  {[ "avatar_ultra_detalhado"; "drivers_mentais_customizados";
     "provas_visuais_sugeridas"; "insights_exclusivos_ultra" ]}.
Proof.
  unfold extracted_analysis. rewrite sections_py_dict.
  cbn [fmap list_fmap fst list_to_set]. set_solver.
Qed.

Lemma metadata_fields (now : string) :
  section (metadata_gemini now) "generated_at" = Some (VStr now) ∧
  section (metadata_gemini now) "model" = Some (VStr "gemini-1.5-flash") ∧
  section (metadata_gemini now) "version" = Some (VStr "2.0.0") ∧
  section (metadata_gemini now) "analysis_type" = Some (VStr "ultra_detailed") ∧
  section (metadata_gemini now) "systems_implemented" =
    Some (VList [VStr "drivers_mentais"; VStr "provas_visuais";
                 VStr "pre_pitch_invisivel"; VStr "anti_objecao";
                 VStr "ancoragem_psicologica"]) ∧
  sections (metadata_gemini now) =
    {[ "generated_at"; "model"; "version"; "analysis_type"; "systems_implemented" ]}.
Proof. repeat split; vm_compute; reflexivity. Qed.

Lemma extracted_is_dict (py_repr : value → string) (segmento : value) :
  ∃ m, extracted_analysis py_repr segmento = VDict m.
Proof. eexists. reflexivity. Qed.

(** ** The fenced code block *)

(** The text between an opening fence at the start and a closing fence at
    the end, without the line feeds around it. *)
Lemma fence_slice (opening s : string) :
  let reply := opening +:+ nl +:+ s +:+ nl +:+ "```" in
  py_strip (py_slice reply
    (py_find reply opening + Z.of_nat (String.length opening)) (py_rfind reply "```"))
  = py_strip s.
Proof.
  intros reply.
  assert (py_rfind reply "```" =
          Z.of_nat (String.length opening + String.length (nl +:+ s +:+ nl))) as ->.
  { rewrite <- length_app, <- (py_rfind_suffix "```"). f_equal.
    unfold reply. by rewrite !app_assoc. }
  unfold reply at 2. rewrite py_find_prefix, Z.add_0_l.
  replace reply with (opening +:+ (nl +:+ s +:+ nl) +:+ "```")
    by (unfold reply; by rewrite !app_assoc).
  rewrite py_slice_middle. apply py_strip_nl.
Qed.

(** Inside a block opened with the tag, the parser decodes the payload
    without the white space around it. *)
Lemma strip_markdown_fenced_json (s : string) :
  strip_markdown (fenced_json s) = py_strip s.
Proof.
  unfold strip_markdown. unfold fenced_json at 1.
  rewrite (py_in_prefix "```json").
  apply (fence_slice "```json").
Qed.

(** The same for a block opened without the tag, when the payload does not
    hold the tagged fence. *)
Lemma strip_markdown_fenced (s : string) :
  py_in "```json" s = false →
  strip_markdown (fenced s) = py_strip s.
Proof.
  intros Hs. unfold strip_markdown.
  assert (py_in "```json" (fenced s) = false) as ->.
  { unfold py_in, fenced in *. unfold nl. rewrite !app_cons, !app_nil_l.
    destruct (find_from "```json" s 0) eqn:E; [done |].
    apply (find_from_none_shift _ _ _ 4) in E.
    do 4 (rewrite find_from_cons; cbn [startswith Ascii.eqb Bool.eqb]).
    rewrite find_from_sep by done. reflexivity. }
  unfold fenced at 1. rewrite (py_in_prefix "```").
  apply (fence_slice "```").
Qed.

(** ** The three tiers of the parser *)

(** A decoded object is returned with the metadata attached. *)
Lemma parse_decoded (json_loads : string → Exc value) (py_repr : value → string)
    (globals : gmap string object) (now text : string) (m : gmap string value) :
  json_loads (strip_markdown text) = Ok (VDict m) →
  _parse_ultra_detailed_response json_loads py_repr globals now text =
  Ok (VDict (<["metadata_gemini" := metadata_gemini now]> m)).
Proof. intros H. unfold _parse_ultra_detailed_response. by rewrite H. Qed.

(** A text that does not decode goes to the heuristic extraction, without
    its fence. *)
Lemma parse_undecodable (json_loads : string → Exc value) (py_repr : value → string)
    (globals : gmap string object) (now text msg : string) :
  json_loads (strip_markdown text) = Raise (JSONDecodeError msg) →
  _parse_ultra_detailed_response json_loads py_repr globals now text =
  _extract_structured_analysis py_repr globals now (strip_markdown text).
Proof. intros H. unfold _parse_ultra_detailed_response. by rewrite H. Qed.

(** The record of the extraction reads the name [data]; where no such name
    is bound, building it raises. *)
Lemma extract_body_unbound (py_repr : value → string) (globals : gmap string object)
    (text : string) :
  globals !! "data" = None →
  extract_body py_repr globals text = Raise (NameError "data").
Proof. intros H. unfold extract_body, load_global. by rewrite H. Qed.

Lemma module_globals_data : module_globals !! "data" = None.
Proof. vm_compute. reflexivity. Qed.

Lemma extract_returns (py_repr : value → string) (globals : gmap string object)
    (now text : string) :
  returns (_extract_structured_analysis py_repr globals now text).
Proof. apply try_except_returns. intros e. by eexists. Qed.

(** Were [data] bound to a dictionary, the extraction would return its own
    record, with the start of the text it was given. *)
Lemma extract_bound (py_repr : value → string) (globals : gmap string object)
    (now text : string) (d : gmap string value) :
  globals !! "data" = Some (Val (VDict d)) →
  ∃ r, _extract_structured_analysis py_repr globals now text = Ok r ∧
       sections r = extracted_sections ∧
       section r "raw_response" = Some (VStr (py_prefix 2000 text)).
Proof.
  intros H. unfold _extract_structured_analysis, extract_body, load_global.
  rewrite H. cbn [mbind Exc_bind call_get].
  destruct (setitem_dict
              (extracted_analysis py_repr (dict_get d "segmento" (VStr "empreendedorismo")))
              "raw_response" (VStr (py_prefix 2000 text))
              (extracted_is_dict _ _)) as (r & -> & Hs & Hk).
  exists r. split; [reflexivity |]. split; [| done].
  rewrite Hs, extracted_has_sections. unfold extracted_sections. set_solver.
Qed.

(** ** The operations of the client *)

Lemma test_connection_returns (self : Client) : returns (test_connection self).
Proof. apply try_except_returns. intros e. by eexists. Qed.

Lemma generate_returns (json_loads : string → Exc value) (py_repr : value → string)
    (globals : gmap string object) (now : string) (self : Client)
    (analysis_data : gmap string value) (search_context attachments_context : option string) :
  returns (generate_ultra_detailed_analysis json_loads py_repr globals now self
             analysis_data search_context attachments_context).
Proof. apply try_except_returns. intros e. by eexists. Qed.

Lemma truthy_false (o : option string) : truthy o = false ↔ o = None ∨ o = Some "".
Proof.
  destruct o as [[|c s]|]; simpl; split; try done; auto.
  by intros [|].
Qed.

(** The reply of the examples: the object [foo_json] inside a fenced
    block. *)
Lemma parse_foo_reply (py_repr : value → string) (globals : gmap string object)
    (now : string) :
  _parse_ultra_detailed_response Json.loads py_repr globals now (fenced_json foo_json) =
  Ok (VDict (<["metadata_gemini" := metadata_gemini now]> {[ "foo" := VInt 1 ]})).
Proof.
  apply parse_decoded. rewrite strip_markdown_fenced_json.
  vm_compute. reflexivity.
Qed.

(** Every reply that does not decode gets the emergency fallback of the
    empty request: the extraction reads the name [data], which the module
    does not bind. *)
Lemma undecodable_reply_gets_fallback (json_loads : string → Exc value)
    (py_repr : value → string) (now text msg : string) :
  json_loads (strip_markdown text) = Raise (JSONDecodeError msg) →
  _parse_ultra_detailed_response json_loads py_repr module_globals now text =
  Ok (_generate_emergency_fallback py_repr now ∅).
Proof.
  intros H. rewrite (parse_undecodable _ _ _ _ _ _ H).
  unfold _extract_structured_analysis.
  by rewrite (extract_body_unbound _ _ _ module_globals_data).
Qed.

(** ** The operations on small inputs *)

Example find_first : py_find "a```b```" "```" = 1%Z.
Proof. reflexivity. Qed.

Example rfind_last : py_rfind "a```b```" "```" = 5%Z.
Proof. reflexivity. Qed.

Example find_absent : py_find "abc" "```" = (-1)%Z.
Proof. reflexivity. Qed.

Example slice_between : py_slice "a```b```" 4 5 = "b".
Proof. reflexivity. Qed.

Example slice_negative_bound : py_slice "abcdef" 2 (-1) = "cde".
Proof. reflexivity. Qed.

Example slice_crossed_bounds : py_slice "```json" 7 0 = "".
Proof. reflexivity. Qed.

Example strip_ascii : py_strip (nl +:+ "  a b " +:+ nl) = "a b".
Proof. reflexivity. Qed.

(** U+00A0, the no-break space, is white space; the last byte of [ã] is not. *)
Example strip_no_break_space :
  py_strip (String (ascii_of_nat 194) (String (ascii_of_nat 160) "ã")) = "ã".
Proof. reflexivity. Qed.

Example prefix_counts_characters : py_prefix 2 "ãéc" = "ãé".
Proof. reflexivity. Qed.

Example loads_object :
  Json.loads ("{" +:+ q "a" +:+ ": [1, -2, true, null, " +:+ q "x" +:+ "], "
              +:+ q "b" +:+ ": {}}") =
  Ok (py_dict [("a", VList [VInt 1; VInt (-2); VBool true; VNone; VStr "x"]);
               ("b", py_dict [])]).
Proof. vm_compute. reflexivity. Qed.

Example loads_last_key_wins :
  Json.loads ("{" +:+ q "a" +:+ ":1," +:+ q "a" +:+ ":2}") = Ok (py_dict [("a", VInt 2)]).
Proof. vm_compute. reflexivity. Qed.

Example loads_float : Json.loads " 2.5e3 " = Ok (VFloat "2.5e3").
Proof. vm_compute. reflexivity. Qed.

Example loads_escapes :
  Json.loads (q "a\u00e3\n\ud83d\ude00") = Ok (VStr ("aã" +:+ nl +:+ "😀")).
Proof. vm_compute. reflexivity. Qed.

Example loads_rejects_text :
  Json.loads "not json" = Raise (JSONDecodeError "Expecting value").
Proof. vm_compute. reflexivity. Qed.

Example loads_rejects_extra_data :
  Json.loads "{} x" = Raise (JSONDecodeError "Extra data").
Proof. vm_compute. reflexivity. Qed.

Example strip_markdown_tagged : strip_markdown (fenced_json foo_json) = foo_json.
Proof. vm_compute. reflexivity. Qed.

Example strip_markdown_bare : strip_markdown (fenced foo_json) = foo_json.
Proof. vm_compute. reflexivity. Qed.

Example strip_markdown_none : strip_markdown foo_json = foo_json.
Proof. vm_compute. reflexivity. Qed.

(** A decoded value that is not an object takes no key: the parser raises,
    and the analysis, which calls it inside its [try], returns the
    fallback. *)
Example parse_array_raises :
  _parse_ultra_detailed_response Json.loads repr_not_called module_globals "T" "[1]" =
  Raise (TypeError "list indices must be integers or slices, not str").
Proof. vm_compute. reflexivity. Qed.

Example generate_on_array :
  generate_ultra_detailed_analysis Json.loads repr_not_called module_globals "T"
    (client_of (replying_model "[1]")) ∅ None None =
  Ok (_generate_emergency_fallback repr_not_called "T" ∅).
Proof. reflexivity. Qed.

(** A reply stopped by the safety filter has no text to read. *)
Example generate_on_blocked_reply :
  generate_ultra_detailed_analysis Json.loads repr_not_called module_globals "T"
    (client_of (blocked_model (ValueError "response.text requires a valid Part")))
    ∅ None None =
  Ok (_generate_emergency_fallback repr_not_called "T" ∅).
Proof. reflexivity. Qed.

(** The scenario of the specification: the request of a coaching course
    and an API that times out give the emergency record, marked as such and
    with the segment of the request as its niche. *)
Example timeout_scenario :
  let request : gmap string value :=
    {[ "segmento" := VStr "coaching"; "produto" := VStr "curso";
       "publico" := VStr "coaches"; "preco" := VInt 997 ]} in
  ∃ result metadata positioning,
    generate_ultra_detailed_analysis Json.loads repr_not_called module_globals "T"
      (client_of (raising_model (OtherError "DeadlineExceeded" "timeout")))
      request None None = Ok result ∧
    section result "metadata_gemini" = Some metadata ∧
    section metadata "model" = Some (VStr "emergency_fallback") ∧
    section result "escopo_posicionamento" = Some positioning ∧
    section positioning "nicho_especifico" = Some (VStr "coaching").
Proof.
  intros request. eexists _, _, _. split; [reflexivity |].
  repeat split; vm_compute; reflexivity.
Qed.

(** The prompt of a request writes its fields after their labels. *)
Example prompt_of_request :
  py_in "- **Preço**: R$ 997"
    (_build_ultra_comprehensive_prompt repr_not_called
       {[ "preco" := VInt 997 ]} None None) = true.
Proof. vm_compute. reflexivity. Qed.

(** ** Texts of objects *)

Lemma rev_onto_acc (s acc : string) : rev_onto s acc = rev_onto s "" +:+ acc.
Proof.
  revert acc. induction s as [|c s IH]; intros acc; [done |].
  simpl. rewrite (IH (String c acc)), (IH (String c "")).
  by rewrite app_assoc.
Qed.

Lemma rev_involutive (s : string) : rev (rev s) = s.
Proof.
  induction s as [|c s IH]; [done |].
  unfold rev at 2. simpl. rewrite rev_onto_acc. fold (rev s).
  by rewrite rev_snoc, IH.
Qed.

(** The text of an object, from its opening brace to its closing brace,
    has no white space for [strip] to remove. *)
Lemma py_strip_object (body : string) :
  py_strip ("{" +:+ body +:+ "}") = "{" +:+ body +:+ "}".
Proof.
  unfold py_strip.
  assert (lstrip ("{" +:+ body +:+ "}") = "{" +:+ body +:+ "}") as ->.
  { rewrite app_cons, app_nil_l.
    destruct (body +:+ "}") as [|x [|y s]]; reflexivity. }
  unfold rstrip.
  replace ("{" +:+ body +:+ "}") with (("{" +:+ body) +:+ "}")
    by by rewrite app_assoc.
  rewrite rev_snoc.
  assert (∀ t, lstrip_rev (String "}" t) = String "}" t) as ->.
  { assert (∀ b, space2 b "}" = false) as H2.
    { intros b. unfold space2. simpl. apply andb_false_r. }
    assert (∀ c b, space3 c b "}" = false) as H3.
    { intros c b. unfold space3.
      replace (nat_of_ascii "}") with 125 by reflexivity.
      simpl. by rewrite !andb_false_r. }
    intros [|x [|y t]]; cbn [lstrip_rev]; rewrite ?H2, ?H3; reflexivity. }
  by rewrite <- rev_snoc, rev_involutive.
Qed.

(** So for any decoder: the text of an object inside a block opened with
    the tag comes back as the object, with the metadata. *)
Lemma fenced_object_round_trip (json_loads : string → Exc value)
    (py_repr : value → string) (globals : gmap string object) (now body : string)
    (X : gmap string value) :
  json_loads ("{" +:+ body +:+ "}") = Ok (VDict X) →
  _parse_ultra_detailed_response json_loads py_repr globals now
    (fenced_json ("{" +:+ body +:+ "}")) =
  Ok (VDict (<["metadata_gemini" := metadata_gemini now]> X)).
Proof.
  intros H. apply parse_decoded.
  by rewrite strip_markdown_fenced_json, py_strip_object.
Qed.

(** A block opened without the tag gives the same record, when the text
    inside does not hold the tagged fence. *)
Lemma fenced_reply_without_tag (json_loads : string → Exc value)
    (py_repr : value → string) (globals : gmap string object) (now s : string)
    (X : gmap string value) :
  json_loads (py_strip s) = Ok (VDict X) →
  py_in "```json" s = false →
  _parse_ultra_detailed_response json_loads py_repr globals now (fenced s) =
  Ok (VDict (<["metadata_gemini" := metadata_gemini now]> X)).
Proof.
  intros H Hs. apply parse_decoded. by rewrite strip_markdown_fenced.
Qed.

(** * The claims of the specification *)

(** ** C1: the sections of the returned record *)

(** C1, as stated, fails: the record parsed from the reply
    [```json {"foo":1} ```] has the sections [foo] and [metadata_gemini],
    which are not the sections of the emergency fallback. *)
Lemma C1_paths_differ_in_sections :
  ∃ parsed,
    _parse_ultra_detailed_response Json.loads repr_not_called module_globals "T"
      (fenced_json foo_json) = Ok parsed ∧
    sections parsed = {[ "foo"; "metadata_gemini" ]} ∧
    sections parsed ≠ sections (_generate_emergency_fallback repr_not_called "T" ∅).
Proof.
  eexists. split; [apply parse_foo_reply |].
  rewrite fallback_has_sections. cbn [sections].
  rewrite dom_insert_L, dom_singleton_L.
  split; [set_solver |].
  unfold fallback_sections. intros H.
  assert ("foo" ∈ ({[ "metadata_gemini" ]} ∪ {[ "foo" ]} : gset string)) as Hin
    by set_solver.
  rewrite H in Hin. set_solver.
Qed.

(** C1, amended: the emergency fallback has the same four sections for
    every request; a structured parse returns the sections of the decoded
    object and [metadata_gemini]; so every record of these two paths has the
    section [metadata_gemini], and a parsed record has the sections of the
    fallback exactly when the decoded object brings the other three. *)
Theorem C1_sections_of_results (json_loads : string → Exc value)
    (py_repr : value → string) (globals : gmap string object) (now text : string)
    (data m : gmap string value) :
  json_loads (strip_markdown text) = Ok (VDict m) →
  sections (_generate_emergency_fallback py_repr now data) = fallback_sections ∧
  ∃ parsed,
    _parse_ultra_detailed_response json_loads py_repr globals now text = Ok parsed ∧
    sections parsed = {[ "metadata_gemini" ]} ∪ dom m ∧
    "metadata_gemini" ∈ sections parsed ∧
    "metadata_gemini" ∈ sections (_generate_emergency_fallback py_repr now data).
Proof.
  intros H. split; [apply fallback_has_sections |].
  eexists. split; [by apply parse_decoded |].
  rewrite fallback_has_sections. simpl. rewrite dom_insert_L.
  unfold fallback_sections. set_solver.
Qed.

Lemma C1_sections_of_results_witness :
  ∃ parsed,
    _parse_ultra_detailed_response Json.loads repr_not_called module_globals "T"
      (fenced_json foo_json) = Ok parsed ∧
    sections parsed = {[ "metadata_gemini" ]} ∪ dom ({[ "foo" := VInt 1 ]} : gmap string value).
Proof.
  destruct (C1_sections_of_results Json.loads repr_not_called module_globals "T"
              (fenced_json foo_json) ∅ {[ "foo" := VInt 1 ]})
    as (_ & parsed & H1 & H2 & _).
  - vm_compute. reflexivity.
  - exists parsed. by split.
Defined.

(** ** C2: the heuristic extraction *)

(** C2, on the reply [not json]: the parser returns the emergency fallback,
    which has neither the section [raw_response] nor the sections
    [drivers_mentais_customizados] and [provas_visuais_sugeridas]. *)
Theorem C2_undecodable_reply_loses_extraction :
  Json.loads (strip_markdown "not json") = Raise (JSONDecodeError "Expecting value") ∧
  _parse_ultra_detailed_response Json.loads repr_not_called module_globals "T" "not json" =
    Ok (_generate_emergency_fallback repr_not_called "T" ∅) ∧
  section (_generate_emergency_fallback repr_not_called "T" ∅) "raw_response" = None ∧
  section (_generate_emergency_fallback repr_not_called "T" ∅)
    "drivers_mentais_customizados" = None ∧
  section (_generate_emergency_fallback repr_not_called "T" ∅)
    "provas_visuais_sugeridas" = None.
Proof. repeat split; vm_compute; reflexivity. Qed.

(** ** C3: the analysis never raises *)



(** ** C4: the heuristic extraction never raises *)

(** C4: [_extract_structured_analysis] returns for every text and every
    binding of the global names; when building its record raises, it returns
    the emergency fallback of the empty request. *)
Theorem C4_extraction_never_raises (py_repr : value → string)
    (globals : gmap string object) (now text : string) :
  returns (_extract_structured_analysis py_repr globals now text) ∧
  ∀ e, extract_body py_repr globals text = Raise e →
       _extract_structured_analysis py_repr globals now text =
       Ok (_generate_emergency_fallback py_repr now ∅).
Proof.
  split; [apply extract_returns |].
  intros e H. unfold _extract_structured_analysis. by rewrite H.
Qed.

Lemma C4_extraction_never_raises_witness :
  extract_body repr_not_called module_globals "not json" = Raise (NameError "data") ∧
  _extract_structured_analysis repr_not_called module_globals "T" "not json" =
  Ok (_generate_emergency_fallback repr_not_called "T" ∅).
Proof.
  split; [vm_compute; reflexivity |].
  destruct (C4_extraction_never_raises repr_not_called module_globals "T" "not json")
    as [_ H].
  apply (H (NameError "data")). vm_compute. reflexivity.
Defined.

(** ** C5: a fenced reply *)

(** C5, as stated, fails for a block opened without the tag: the parser
    looks for the tagged fence first, anywhere in the reply, so the object
    with the value [```json] under the key [a] is cut after that value, the
    rest does not decode, and the parser returns the emergency fallback
    instead of the object with the metadata. *)
Lemma C5_inner_tag_cuts_payload :
  let s := "{" +:+ q "a" +:+ ":" +:+ q "```json" +:+ "}" in
  let X : gmap string value := {[ "a" := VStr "```json" ]} in
  Json.loads s = Ok (VDict X) ∧
  strip_markdown (fenced s) = dq +:+ "}" ∧
  _parse_ultra_detailed_response Json.loads repr_not_called module_globals "T" (fenced s) =
    Ok (_generate_emergency_fallback repr_not_called "T" ∅) ∧
  _parse_ultra_detailed_response Json.loads repr_not_called module_globals "T" (fenced s) ≠
    Ok (VDict (<["metadata_gemini" := metadata_gemini "T"]> X)).
Proof.
  intros s X.
  assert (_parse_ultra_detailed_response Json.loads repr_not_called module_globals "T"
            (fenced s) = Ok (_generate_emergency_fallback repr_not_called "T" ∅)) as Hp.
  { apply (undecodable_reply_gets_fallback _ _ _ _ "Unterminated string").
    vm_compute. reflexivity. }
  split; [vm_compute; reflexivity |].
  split; [vm_compute; reflexivity |].
  split; [exact Hp |].
  rewrite Hp. intros H.
  assert (sections (_generate_emergency_fallback repr_not_called "T" ∅) =
          sections (VDict (<["metadata_gemini" := metadata_gemini "T"]> X))) as Hs
    by congruence.
  rewrite fallback_has_sections in Hs.
  cbn [sections] in Hs. rewrite dom_insert_L in Hs. unfold X in Hs.
  rewrite dom_singleton_L in Hs.
  assert ("a" ∈ fallback_sections) as Hin by (rewrite Hs; set_solver).
  unfold fallback_sections in Hin. set_solver.
Qed.

(** C5, amended: for every JSON text [s] of a mapping [X], which the
    decoder reads the same with and without the white space around it, the
    parser applied to [s] inside a block opened with [```json] returns [X]
    with the section [metadata_gemini] set to the metadata; inside a block
    opened with a bare fence it returns the same, provided [s] does not
    contain [```json]. *)
Theorem C5_fenced_reply_round_trip (json_loads : string → Exc value)
    (py_repr : value → string) (globals : gmap string object) (now s : string)
    (X : gmap string value) :
  json_loads s = Ok (VDict X) →
  json_loads (py_strip s) = json_loads s →
  _parse_ultra_detailed_response json_loads py_repr globals now (fenced_json s) =
    Ok (VDict (<["metadata_gemini" := metadata_gemini now]> X)) ∧
  (py_in "```json" s = false →
   _parse_ultra_detailed_response json_loads py_repr globals now (fenced s) =
     Ok (VDict (<["metadata_gemini" := metadata_gemini now]> X))).
Proof.
  intros H1 H2. split.
  - apply parse_decoded. by rewrite strip_markdown_fenced_json, H2.
  - intros Hs. apply fenced_reply_without_tag; [by rewrite H2 | done].
Qed.

Lemma C5_fenced_reply_round_trip_witness :
  _parse_ultra_detailed_response Json.loads repr_not_called module_globals "T"
    (fenced_json foo_json) =
    Ok (VDict (<["metadata_gemini" := metadata_gemini "T"]> {[ "foo" := VInt 1 ]})) ∧
  _parse_ultra_detailed_response Json.loads repr_not_called module_globals "T"
    (fenced foo_json) =
    Ok (VDict (<["metadata_gemini" := metadata_gemini "T"]> {[ "foo" := VInt 1 ]})).
Proof.
  destruct (C5_fenced_reply_round_trip Json.loads repr_not_called module_globals "T"
              foo_json {[ "foo" := VInt 1 ]}) as [Htag Hbare].
  - vm_compute. reflexivity.
  - vm_compute. reflexivity.
  - split; [exact Htag |]. apply Hbare. vm_compute. reflexivity.
Defined.

(** ** C6: the prompt *)

Lemma lines_elem (x : string) (ls : list string) :
  x ∈ ls → ∃ a b, lines ls = a +:+ x +:+ b.
Proof.
  induction ls as [|l ls IH]; [by intros ?%elem_of_nil |].
  intros [-> | [a [b E]]%IH]%elem_of_cons.
  - exists "", (nl +:+ lines ls). reflexivity.
  - exists (l +:+ nl +:+ a), b.
    change (lines (l :: ls)) with (l +:+ nl +:+ lines ls).
    by rewrite E, !app_assoc.
Qed.

Lemma prompt_shape (py_repr : value → string) (data : gmap string value)
    (search_context attachments_context : option string) :
  ∃ rest,
    _build_ultra_comprehensive_prompt py_repr data search_context attachments_context =
    lines (prompt_opening ++ map (field_line py_repr data) request_fields) +:+ rest.
Proof.
  unfold _build_ultra_comprehensive_prompt.
  destruct (truthy search_context), (truthy attachments_context);
    eexists; rewrite ?app_assoc; reflexivity.
Qed.



(** ** C7: the section of the search context *)

(** The prompt, line by line. *)
Lemma prompt_lines (py_repr : value → string) (data : gmap string value)
    (search_context attachments_context : option string) :
  _build_ultra_comprehensive_prompt py_repr data search_context attachments_context =
  lines (prompt_opening ++ map (field_line py_repr data) request_fields
         ++ (if truthy search_context
             then [""; search_header; default "" search_context] else [])
         ++ (if truthy attachments_context
             then [""; "## CONTEXTO DOS ANEXOS:"; default "" attachments_context] else [])
         ++ prompt_instructions).
Proof.
  unfold _build_ultra_comprehensive_prompt.
  rewrite (List.app_assoc prompt_opening), !lines_app.
  destruct (truthy search_context), (truthy attachments_context);
    cbn [lines]; rewrite ?app_assoc, ?app_nil_l; reflexivity.
Qed.

Lemma sum_list_with_zero {A} (g : A → nat) (l : list A) :
  (∀ x, x ∈ l → g x = 0) → sum_list_with g l = 0.
Proof.
  induction l as [|x l IH]; intros H; [done |].
  cbn [sum_list_with]. rewrite (H x), IH; [done | | by left].
  intros y Hy. apply H. by right.
Qed.

(** The fixed lines of the prompt do not hold the header of the search
    context, and no label of a field has its first character. *)
Lemma header_not_in_fixed_lines :
  sum_list_with (occurrences search_header) prompt_opening = 0 ∧
  sum_list_with (occurrences search_header) prompt_instructions = 0 ∧
  occurrences search_header "## CONTEXTO DOS ANEXOS:" = 0 ∧
  occurrences search_header search_header = 1 ∧
  forallb (λ f : string * string, negb (has_char "#" f.2)) request_fields = true.
Proof. repeat split; vm_compute; reflexivity. Qed.

(** C7, as stated, fails: with no search context and the header as the
    text of the attachments, the prompt has the header; with the header as
    the search context, the prompt has it twice. *)
Lemma C7_header_from_other_inputs :
  py_in search_header
    (_build_ultra_comprehensive_prompt repr_not_called ∅ None (Some search_header)) = true ∧
  occurrences search_header
    (_build_ultra_comprehensive_prompt repr_not_called ∅ (Some search_header) None) = 2.
Proof. split; vm_compute; reflexivity. Qed.

(** C7, amended: when no field written in the prompt, nor the text of the
    attachments, nor the search context holds the header, the prompt has no
    occurrence of the header if the search context is absent or empty, and
    exactly one if it is not; in that case the header is followed by a line
    feed and the search context. *)
Theorem C7_search_section (py_repr : value → string) (data : gmap string value)
    (search_context attachments_context : option string) :
  (∀ f, f ∈ request_fields →
        occurrences search_header (py_str py_repr (dict_get data f.1 (VStr placeholder))) = 0) →
  occurrences search_header (default "" attachments_context) = 0 →
  occurrences search_header (default "" search_context) = 0 →
  let prompt :=
    _build_ultra_comprehensive_prompt py_repr data search_context attachments_context in
  (truthy search_context = false → occurrences search_header prompt = 0) ∧
  (truthy search_context = true →
     occurrences search_header prompt = 1 ∧
     py_in (search_header +:+ nl +:+ default "" search_context +:+ nl) prompt = true).
Proof.
  intros Hfields Hac Hsc prompt.
  destruct header_not_in_fixed_lines as (Ho & Hi & Ha & Hh & Hl).
  assert (sum_list_with (occurrences search_header)
            (map (field_line py_repr data) request_fields) = 0) as Hf.
  { apply sum_list_with_zero. intros x (f & -> & Hf)%list_elem_of_fmap.
    unfold field_line, search_header.
    rewrite occurrences_label; [by apply Hfields |].
    rewrite forallb_forall in Hl. apply negb_true_iff, Hl.
    by apply list_elem_of_In. }
  assert (occurrences search_header prompt =
          if truthy search_context then 1 else 0) as Hcount.
  { unfold prompt. rewrite prompt_lines. unfold search_header at 1.
    rewrite occurrences_lines by reflexivity. fold search_header.
    rewrite !sum_list_with_app, Ho, Hf, Hi.
    destruct (truthy search_context), (truthy attachments_context);
      cbn [sum_list_with]; rewrite ?Hh, ?Ha, ?Hac, ?Hsc; reflexivity. }
  split; intros Ht; rewrite Hcount, Ht; [done |].
  split; [done |].
  unfold prompt, _build_ultra_comprehensive_prompt. rewrite Ht.
  apply py_in_spec.
  exists (lines (prompt_opening ++ map (field_line py_repr data) request_fields) +:+ nl),
    ((if truthy attachments_context
      then nl +:+ "## CONTEXTO DOS ANEXOS:" +:+ nl
           +:+ default "" attachments_context +:+ nl
      else "") +:+ lines prompt_instructions).
  unfold search_header.
  destruct (truthy attachments_context); rewrite ?app_assoc, ?app_nil_l; reflexivity.
Qed.

Lemma C7_search_section_witness :
  occurrences search_header
    (_build_ultra_comprehensive_prompt repr_not_called ∅ (Some "SC") (Some "AC")) = 1 ∧
  occurrences search_header
    (_build_ultra_comprehensive_prompt repr_not_called ∅ None (Some "AC")) = 0.
Proof.
  split.
  - refine (proj1 (proj2 (C7_search_section repr_not_called ∅ (Some "SC") (Some "AC")
                            _ _ _) _)); reflexivity.
  - refine (proj1 (C7_search_section repr_not_called ∅ None (Some "AC") _ _ _) _);
      reflexivity.
Defined.

(** ** C8: the connectivity test *)

(** C8: [test_connection] returns a boolean for every behaviour of the API;
    it is true exactly when the call returns a reply whose text has the
    token OK, and false when the call raises, when the reply has no text to
    read, and when the text has no OK. *)
Theorem C8_test_connection (self : Client) :
  let outcome :=
    model self "Teste de conexão. Responda apenas: OK"
      (generation_config self) (safety_settings self) in
  returns (test_connection self) ∧
  (test_connection self = Ok true ↔
     ∃ response reply,
       outcome = Ok response ∧ text response = Ok reply ∧ py_in "OK" reply = true) ∧
  (∀ e, outcome = Raise e → test_connection self = Ok false) ∧
  (∀ response e,
     outcome = Ok response → text response = Raise e → test_connection self = Ok false) ∧
  (∀ response reply,
     outcome = Ok response → text response = Ok reply → py_in "OK" reply = false →
     test_connection self = Ok false).
Proof.
  intros outcome. split; [apply test_connection_returns |].
  unfold test_connection. fold outcome.
  destruct outcome as [[[reply|e']]|e]; simpl; repeat split; try done;
    try naive_solver.
  - intros (response & reply' & [= <-] & [= <-] & ->). done.
  - intros response reply' [= <-] [= <-] ->. done.
Qed.

Lemma C8_test_connection_witness :
  test_connection (client_of (replying_model "OK")) = Ok true ∧
  test_connection (client_of (replying_model "KO")) = Ok false ∧
  test_connection (client_of (raising_model (OtherError "ServiceUnavailable" "503"))) =
    Ok false.
Proof.
  split; [| split].
  - apply (proj1 (proj2 (C8_test_connection (client_of (replying_model "OK"))))).
    exists {| text := Ok "OK" |}, "OK". repeat split.
  - apply (proj2 (proj2 (proj2 (proj2
             (C8_test_connection (client_of (replying_model "KO"))))))
             {| text := Ok "KO" |} "KO"); reflexivity.
  - apply (proj1 (proj2 (proj2
             (C8_test_connection
                (client_of (raising_model (OtherError "ServiceUnavailable" "503"))))))
             (OtherError "ServiceUnavailable" "503")).
    reflexivity.
Defined.

(** ** C9: the construction of the client *)

Lemma init_missing (genai_GenerativeModel : string → GenerativeModel)
    (environ : gmap string string) :
  truthy (environ !! "GEMINI_API_KEY") = false →
  __init__ genai_GenerativeModel environ =
  Raise (ValueError "GEMINI_API_KEY não configurada").
Proof. intros H. unfold __init__. by rewrite H. Qed.

Lemma init_present (genai_GenerativeModel : string → GenerativeModel)
    (environ : gmap string string) :
  truthy (environ !! "GEMINI_API_KEY") = true →
  returns (__init__ genai_GenerativeModel environ).
Proof. intros H. unfold __init__. rewrite H. by eexists. Qed.



(** ** C10: what a structured parse keeps and what it sets *)

(** C10: when the reply decodes to an object, the parser returns it with
    every section other than [metadata_gemini] unchanged, and with
    [metadata_gemini] set to the fixed record (the time of the call, the
    model, the version, the type of analysis and the list of systems),
    whatever the object had under that name. *)
Theorem C10_parse_frame (json_loads : string → Exc value) (py_repr : value → string)
    (globals : gmap string object) (now text : string) (m : gmap string value) :
  json_loads (strip_markdown text) = Ok (VDict m) →
  ∃ r,
    _parse_ultra_detailed_response json_loads py_repr globals now text = Ok (VDict r) ∧
    (∀ k, k ≠ "metadata_gemini" → r !! k = m !! k) ∧
    r !! "metadata_gemini" = Some (metadata_gemini now) ∧
    metadata_gemini now =
      py_dict [
        ("generated_at", VStr now);
        ("model", VStr "gemini-1.5-flash");
        ("version", VStr "2.0.0");
        ("analysis_type", VStr "ultra_detailed");
        ("systems_implemented",
         VList [VStr "drivers_mentais"; VStr "provas_visuais";
                VStr "pre_pitch_invisivel"; VStr "anti_objecao";
                VStr "ancoragem_psicologica"])
      ].
Proof.
  intros H. eexists. split; [by apply parse_decoded |].
  split; [| split].
  - intros k Hk. by rewrite lookup_insert_ne.
  - apply lookup_insert_eq.
  - reflexivity.
Qed.

Lemma C10_parse_frame_witness :
  ∃ r,
    _parse_ultra_detailed_response Json.loads repr_not_called module_globals "T"
      ("{" +:+ q "foo" +:+ ":1," +:+ q "metadata_gemini" +:+ ":" +:+ q "mine" +:+ "}") =
    Ok (VDict r) ∧
    r !! "foo" = Some (VInt 1) ∧
    r !! "metadata_gemini" = Some (metadata_gemini "T").
Proof.
  destruct (C10_parse_frame Json.loads repr_not_called module_globals "T"
              ("{" +:+ q "foo" +:+ ":1," +:+ q "metadata_gemini" +:+ ":" +:+ q "mine" +:+ "}")
              (<["metadata_gemini" := VStr "mine"]> {[ "foo" := VInt 1 ]}))
    as (r & Hr & Hk & Hm & _).
  - vm_compute. reflexivity.
  - exists r. split; [done |]. split; [| done].
    rewrite Hk by done. vm_compute. reflexivity.
Defined.

(** * Further properties of the module *)

(** ** Positions of a fence *)

Lemma startswith_head (h x : ascii) (t s : string) :
  h ≠ x → startswith (String h t) (String x s) = false.
Proof. intros H. simpl. by destruct (Ascii.eqb_spec h x). Qed.

Lemma has_char_cons (c x : ascii) (s : string) :
  has_char c (String x s) = false → c ≠ x ∧ has_char c s = false.
Proof. simpl. by destruct (Ascii.eqb_spec c x). Qed.

Lemma find_from_prefix (sub r : string) (i : nat) :
  find_from sub (sub +:+ r) i = Some i.
Proof.
  assert (startswith sub (sub +:+ r) = true) as E by apply startswith_app.
  destruct (sub +:+ r); simpl; by rewrite E.
Qed.

(** The search from the left passes over a text without the first
    character of [sub]. *)
Lemma find_from_skip (h : ascii) (t pre r : string) (i : nat) :
  has_char h pre = false →
  find_from (String h t) (pre +:+ r) i =
  find_from (String h t) r (i + String.length pre).
Proof.
  revert i. induction pre as [|x pre IH]; intros i H.
  - rewrite app_nil_l. simpl. by rewrite Nat.add_0_r.
  - apply has_char_cons in H as [Hne H].
    rewrite app_cons, find_from_cons, startswith_head by done.
    rewrite IH by done. f_equal. simpl. lia.
Qed.

Lemma find_from_lower (sub s : string) (i j : nat) :
  find_from sub s i = Some j → i ≤ j.
Proof. intros (a & b & _ & ->)%find_from_inv. lia. Qed.

(** The search from the right finds nothing in such a text. *)
Lemma rfind_from_none (h : ascii) (t post : string) (i : nat) :
  has_char h post = false → rfind_from (String h t) post i = None.
Proof.
  revert i. induction post as [|x post IH]; intros i H; [done |].
  apply has_char_cons in H as [Hne H].
  cbn [rfind_from]. rewrite IH by done. by rewrite startswith_head.
Qed.

(** A position found from the right is a position of [sub]. *)
Lemma rfind_from_inv (sub s : string) (i j : nat) :
  rfind_from sub s i = Some j →
  ∃ a b, s = a +:+ sub +:+ b ∧ j = i + String.length a.
Proof.
  revert i. induction s as [|x s IH]; intros i; cbn [rfind_from].
  - destruct (startswith sub "") eqn:E; [| done].
    intros [= <-]. apply startswith_inv in E as [t ->].
    exists "", t. split; [done |]. simpl. lia.
  - destruct (rfind_from sub s (S i)) as [k|] eqn:R.
    + intros [= <-]. apply IH in R as (a & b & -> & ->).
      exists (String x a), b. split; [by rewrite app_cons |]. simpl. lia.
    + destruct (startswith sub (String x s)) eqn:E; [| done].
      intros [= <-]. apply startswith_inv in E as [t ->].
      exists "", t. split; [done |]. simpl. lia.
Qed.

(** The search from the right finds a position where there is one. *)
Lemma rfind_from_app (sub a b : string) (i : nat) :
  is_Some (rfind_from sub (a +:+ sub +:+ b) i).
Proof.
  revert i. induction a as [|x a IH]; intros i.
  - rewrite app_nil_l.
    assert (startswith sub (sub +:+ b) = true) as E by apply startswith_app.
    destruct (sub +:+ b) as [|y u]; cbn [rfind_from].
    + rewrite E. by eexists.
    + destruct (rfind_from sub u (S i)); [by eexists |]. rewrite E. by eexists.
  - rewrite app_cons. cbn [rfind_from].
    destruct (IH (S i)) as [k ->]. by eexists.
Qed.

(** The last position is the one of the text after [a], when [sub] is found
    there. *)
Lemma rfind_from_last (sub a r : string) (i : nat) :
  is_Some (rfind_from sub r (i + String.length a)) →
  rfind_from sub (a +:+ r) i = rfind_from sub r (i + String.length a).
Proof.
  revert i. induction a as [|x a IH]; intros i H.
  - rewrite app_nil_l. simpl. by rewrite Nat.add_0_r.
  - rewrite app_cons. cbn [rfind_from].
    replace (i + String.length (String x a)) with (S i + String.length a) in *
      by (simpl; lia).
    rewrite IH by done. by destruct H as [k ->].
Qed.

(** The closing fence is the last one when no backtick follows it. *)
Lemma rfind_from_fence (post : string) (i : nat) :
  has_char "`" post = false → rfind_from "```" ("```" +:+ post) i = Some i.
Proof.
  intros H. rewrite !app_cons, app_nil_l. cbn [rfind_from].
  rewrite rfind_from_none by done.
  destruct post as [|x post]; [reflexivity |].
  apply has_char_cons in H as [Hne H].
  cbn [startswith]. rewrite !Ascii.eqb_refl.
  by destruct (Ascii.eqb_spec "`" x).
Qed.

(** Two ways to split one text. *)
Lemma app_split (p r a c : string) :
  p +:+ r = a +:+ c → String.length p ≤ String.length a →
  ∃ a', a = p +:+ a' ∧ r = a' +:+ c.
Proof.
  revert a. induction p as [|x p IH]; intros a E Hlen.
  - exists a. by rewrite !app_nil_l in *.
  - destruct a as [|y a]; [simpl in Hlen; lia |].
    rewrite !app_cons in E. injection E as -> E.
    destruct (IH a E) as (a' & -> & ->); [simpl in Hlen; lia |].
    by exists a'.
Qed.

Lemma py_find_ge (s sub : string) : py_in sub s = true → (0 ≤ py_find s sub)%Z.
Proof. unfold py_in, py_find. destruct (find_from sub s 0); [lia | done]. Qed.

(** A slice whose bounds are crossed is empty. *)
Lemma py_slice_crossed (s : string) (start stop : Z) :
  (0 ≤ stop ≤ start)%Z → py_slice s start stop = "".
Proof.
  intros H. unfold py_slice, clip.
  destruct (Z.ltb_spec start 0), (Z.ltb_spec stop 0); try lia.
  replace (_ - _) with 0 by lia. by destruct (drop _ s).
Qed.

(** The tagged fence holds the bare one. *)
Lemma bare_fence_in_tagged (s : string) :
  py_in "```json" s = true → py_in "```" s = true.
Proof.
  intros (a & b & ->)%py_in_spec. apply py_in_spec.
  exists a, ("json" +:+ b). by rewrite !app_cons, !app_nil_l.
Qed.

(** The text of a block whose opening fence follows a commentary [pre] and
    whose closing fence is followed by a commentary [post], both without
    backticks. *)
Lemma block_slice (opening pre s post : string) :
  has_char "`" pre = false → has_char "`" post = false →
  (∃ t, opening = String "`" t) →
  let reply := pre +:+ (opening +:+ nl +:+ s +:+ nl +:+ "```") +:+ post in
  py_strip (py_slice reply
    (py_find reply opening + Z.of_nat (String.length opening)) (py_rfind reply "```"))
  = py_strip s.
Proof.
  intros Hpre Hpost [t ->] reply. set (opening := String "`" t) in *.
  assert (py_find reply opening = Z.of_nat (String.length pre)) as ->.
  { unfold py_find, reply, opening.
    rewrite find_from_skip by done.
    rewrite !app_assoc. fold opening. by rewrite find_from_prefix. }
  assert (reply = (pre +:+ opening) +:+ (nl +:+ s +:+ nl) +:+ ("```" +:+ post)) as E.
  { unfold reply. by rewrite !app_assoc. }
  assert (py_rfind reply "```" =
          Z.of_nat (String.length (pre +:+ opening) + String.length (nl +:+ s +:+ nl)))
    as ->.
  { rewrite <- length_app. unfold py_rfind.
    replace reply with (((pre +:+ opening) +:+ (nl +:+ s +:+ nl)) +:+ ("```" +:+ post))
      by (rewrite E; by rewrite !app_assoc).
    rewrite rfind_from_last; rewrite rfind_from_fence by done; [done | by eexists]. }
  rewrite <- Nat2Z.inj_add, <- length_app, E, py_slice_middle.
  apply py_strip_nl.
Qed.

(** ** The reply and its fenced block *)

(** X1: a reply without three backticks in a row is decoded as it is, white
    space included: the parser takes the whole text when it finds no fence,
    and returns the decoded object with the metadata. *)
Theorem X1_reply_without_fence (json_loads : string → Exc value)
    (py_repr : value → string) (globals : gmap string object) (now text : string) :
  py_in "```" text = false →
  strip_markdown text = text ∧
  ∀ X, json_loads text = Ok (VDict X) →
       _parse_ultra_detailed_response json_loads py_repr globals now text =
       Ok (VDict (<["metadata_gemini" := metadata_gemini now]> X)).
Proof.
  intros H.
  assert (strip_markdown text = text) as E.
  { unfold strip_markdown. rewrite H.
    destruct (py_in "```json" text) eqn:E; [| done].
    apply bare_fence_in_tagged in E. congruence. }
  split; [done |]. intros X HX. apply parse_decoded. by rewrite E.
Qed.

Lemma X1_reply_without_fence_witness :
  py_in "```" (" " +:+ foo_json) = false ∧
  strip_markdown (" " +:+ foo_json) = " " +:+ foo_json ∧
  _parse_ultra_detailed_response Json.loads repr_not_called module_globals "T"
    (" " +:+ foo_json) =
  Ok (VDict (<["metadata_gemini" := metadata_gemini "T"]> {[ "foo" := VInt 1 ]})).
Proof.
  split; [reflexivity |].
  destruct (X1_reply_without_fence Json.loads repr_not_called module_globals "T"
              (" " +:+ foo_json)) as [E H]; [reflexivity |].
  split; [exact E |]. apply H. vm_compute. reflexivity.
Defined.

(** X2: what the model writes before and after a fenced block is dropped.
    For a commentary before the block and one after it, both without
    backticks, the parser decodes the text inside a block opened with the
    tag, without the white space around it; the same holds for a block
    opened without the tag when the reply does not hold the tagged fence. *)
Theorem X2_commentary_around_block (json_loads : string → Exc value)
    (py_repr : value → string) (globals : gmap string object)
    (now pre s post : string) (X : gmap string value) :
  has_char "`" pre = false →
  has_char "`" post = false →
  json_loads (py_strip s) = Ok (VDict X) →
  strip_markdown (pre +:+ fenced_json s +:+ post) = py_strip s ∧
  _parse_ultra_detailed_response json_loads py_repr globals now
    (pre +:+ fenced_json s +:+ post) =
  Ok (VDict (<["metadata_gemini" := metadata_gemini now]> X)) ∧
  (py_in "```json" (pre +:+ fenced s +:+ post) = false →
   _parse_ultra_detailed_response json_loads py_repr globals now
     (pre +:+ fenced s +:+ post) =
   Ok (VDict (<["metadata_gemini" := metadata_gemini now]> X))).
Proof.
  intros Hpre Hpost HX.
  assert (strip_markdown (pre +:+ fenced_json s +:+ post) = py_strip s) as E.
  { assert (py_in "```json" (pre +:+ fenced_json s +:+ post) = true) as Hin.
    { apply py_in_spec. exists pre, (nl +:+ s +:+ nl +:+ "```" +:+ post).
      unfold fenced_json. by rewrite !app_assoc. }
    unfold strip_markdown. rewrite Hin.
    apply (block_slice "```json" pre s post); [done | done | by eexists]. }
  split; [done |]. split.
  - apply parse_decoded. by rewrite E.
  - intros Hno. apply parse_decoded.
    assert (py_in "```" (pre +:+ fenced s +:+ post) = true) as Hin.
    { apply py_in_spec. exists pre, (nl +:+ s +:+ nl +:+ "```" +:+ post).
      unfold fenced. by rewrite !app_assoc. }
    assert (strip_markdown (pre +:+ fenced s +:+ post) = py_strip s) as ->; [| done].
    unfold strip_markdown. rewrite Hno, Hin.
    apply (block_slice "```" pre s post); [done | done | by eexists].
Qed.

Lemma X2_commentary_around_block_witness :
  let pre := "Segue a análise:" +:+ nl in
  let post := nl +:+ "Espero ter ajudado." in
  _parse_ultra_detailed_response Json.loads repr_not_called module_globals "T"
    (pre +:+ fenced_json foo_json +:+ post) =
  Ok (VDict (<["metadata_gemini" := metadata_gemini "T"]> {[ "foo" := VInt 1 ]})) ∧
  _parse_ultra_detailed_response Json.loads repr_not_called module_globals "T"
    (pre +:+ fenced foo_json +:+ post) =
  Ok (VDict (<["metadata_gemini" := metadata_gemini "T"]> {[ "foo" := VInt 1 ]})).
Proof.
  intros pre post.
  destruct (X2_commentary_around_block Json.loads repr_not_called module_globals "T"
              pre foo_json post {[ "foo" := VInt 1 ]}) as (_ & H1 & H2).
  - reflexivity.
  - reflexivity.
  - vm_compute. reflexivity.
  - split; [exact H1 |]. apply H2. vm_compute. reflexivity.
Defined.

(** X3: a block that is opened and never closed is not decoded.  When the
    reply has an opening fence (with or without the tag) after a commentary
    without backticks, and no fence after it, the closing fence the parser
    finds is the opening one, the slice between the two bounds is empty, and
    the parser of the module, whose decoder rejects the empty text, returns
    the emergency fallback of the empty request, whatever the block holds. *)
Theorem X3_unclosed_block (json_loads : string → Exc value)
    (py_repr : value → string) (now pre s msg : string) :
  has_char "`" pre = false →
  py_in "```" s = false →
  json_loads "" = Raise (JSONDecodeError msg) →
  strip_markdown (pre +:+ "```" +:+ s) = "" ∧
  _parse_ultra_detailed_response json_loads py_repr module_globals now
    (pre +:+ "```" +:+ s) =
  Ok (_generate_emergency_fallback py_repr now ∅).
Proof.
  intros Hpre Hs Hloads.
  set (reply := pre +:+ "```" +:+ s).
  assert (strip_markdown reply = "") as E.
  { (* the last fence starts at most two characters after the opening one *)
    assert (∃ j, py_rfind reply "```" = Z.of_nat j ∧ j ≤ String.length pre + 2)
      as (j & Hj & Hle).
    { unfold py_rfind.
      destruct (rfind_from_app "```" pre s 0) as [j Hj]. fold reply in Hj.
      rewrite Hj. exists j. split; [done |].
      apply rfind_from_inv in Hj as (a & b & Hab & ->).
      destruct (decide (String.length a ≤ String.length pre + 2)) as [|Hgt]; [lia |].
      exfalso.
      destruct (app_split (pre +:+ "```") s a ("```" +:+ b)) as (a' & _ & Hs').
      { rewrite app_assoc. exact Hab. }
      { rewrite length_app. simpl. lia. }
      assert (py_in "```" s = true) as Hin by (apply py_in_spec; by exists a', b).
      congruence. }
    (* the first fence is the opening one *)
    assert (∀ t, find_from (String "`" t) reply 0 =
                 find_from (String "`" t) ("```" +:+ s) (String.length pre)) as Hfind.
    { intros t. unfold reply. by rewrite find_from_skip. }
    assert (py_find reply "```" = Z.of_nat (String.length pre)) as Hbare.
    { unfold py_find. by rewrite Hfind, find_from_prefix. }
    assert (py_in "```" reply = true) as Hin by apply py_in_app.
    unfold strip_markdown. rewrite Hin.
    destruct (py_in "```json" reply) eqn:Htag.
    - assert (Z.of_nat (String.length pre) ≤ py_find reply "```json")%Z as Hge.
      { unfold py_in in Htag. unfold py_find. rewrite Hfind in Htag |- *.
        destruct (find_from "```json" _ _) as [k|] eqn:Hk; [| done].
        apply find_from_lower in Hk. lia. }
      rewrite py_slice_crossed; [done | lia].
    - rewrite py_slice_crossed; [done | lia]. }
  split; [done |].
  apply (undecodable_reply_gets_fallback _ _ _ _ msg). by rewrite E.
Qed.

Lemma X3_unclosed_block_witness :
  let reply := "Análise:" +:+ nl +:+ "```" +:+ "json" +:+ nl +:+ foo_json in
  strip_markdown reply = "" ∧
  _parse_ultra_detailed_response Json.loads repr_not_called module_globals "T" reply =
  Ok (_generate_emergency_fallback repr_not_called "T" ∅).
Proof.
  intros reply.
  apply (X3_unclosed_block Json.loads repr_not_called "T" ("Análise:" +:+ nl)
           ("json" +:+ nl +:+ foo_json) "Expecting value").
  - reflexivity.
  - reflexivity.
  - vm_compute. reflexivity.
Defined.

(** ** When the parser raises *)

(** X4: the parser itself is not total.  It raises [TypeError] when the
    text decodes to a value that is not an object (a list, a number, a
    string, [null]), since the metadata cannot be stored in it, and it lets
    through every error of the decoder other than [JSONDecodeError]; it
    returns exactly when the text decodes to an object or is rejected with
    [JSONDecodeError]. *)
Theorem X4_parser_raises (json_loads : string → Exc value)
    (py_repr : value → string) (globals : gmap string object) (now text : string) :
  let result := _parse_ultra_detailed_response json_loads py_repr globals now text in
  let decoded := json_loads (strip_markdown text) in
  (∀ v, decoded = Ok v → is_dict v = false → ∃ msg, result = Raise (TypeError msg)) ∧
  (∀ e, decoded = Raise e → is_JSONDecodeError e = false → result = Raise e) ∧
  (returns result ↔
   (∃ X, decoded = Ok (VDict X)) ∨ (∃ msg, decoded = Raise (JSONDecodeError msg))).
Proof.
  intros result decoded.
  unfold result, _parse_ultra_detailed_response. fold decoded.
  split_and!.
  - intros v -> Hv. destruct v; try done; by eexists.
  - intros e -> He. simpl. by rewrite He.
  - split.
    + intros [r Hr]. destruct decoded as [v|e].
      * destruct v; try done. left. by eexists.
      * destruct e; try done. right. by eexists.
    + intros [[X ->] | [msg ->]].
      * by eexists.
      * apply extract_returns.
Qed.

Lemma X4_parser_raises_witness :
  (∃ msg, _parse_ultra_detailed_response Json.loads repr_not_called module_globals "T"
            (fenced_json "[1, 2]") = Raise (TypeError msg)) ∧
  _parse_ultra_detailed_response (λ _, Raise (OtherError "RecursionError" "depth"))
    repr_not_called module_globals "T" "[[[[" =
  Raise (OtherError "RecursionError" "depth").
Proof.
  split.
  - destruct (X4_parser_raises Json.loads repr_not_called module_globals "T"
                (fenced_json "[1, 2]")) as (H & _ & _).
    apply (H (VList [VInt 1; VInt 2])); [vm_compute; reflexivity | reflexivity].
  - destruct (X4_parser_raises (λ _, Raise (OtherError "RecursionError" "depth"))
                repr_not_called module_globals "T" "[[[[") as (_ & H & _).
    apply H; reflexivity.
Defined.

(** ** The emergency fallback and the request *)

Lemma model_tag_fallback (py_repr : value → string) (now : string)
    (data : gmap string value) :
  model_tag (_generate_emergency_fallback py_repr now data) =
  Some (VStr "emergency_fallback").
Proof. vm_compute. reflexivity. Qed.

Lemma model_tag_parsed (now : string) (X : gmap string value) :
  model_tag (VDict (<["metadata_gemini" := metadata_gemini now]> X)) =
  Some (VStr "gemini-1.5-flash").
Proof.
  unfold model_tag. cbn [section]. rewrite lookup_insert_eq. cbn [mbind option_bind].
  apply metadata_fields.
Qed.

Lemma nicho_fallback (py_repr : value → string) (now : string)
    (data : gmap string value) :
  nicho_especifico (_generate_emergency_fallback py_repr now data) =
  Some (dict_get data "segmento" (VStr "Empreendedorismo Digital")).
Proof. vm_compute. reflexivity. Qed.

(** The pair written last in a dictionary display decides its key. *)
Lemma section_py_dict_last (kvs : list (string * value)) (k : string) (v : value) :
  section (py_dict (kvs ++ [(k, v)])) k = Some v.
Proof.
  unfold py_dict. rewrite fold_left_app. cbn [fold_left fst snd section].
  apply lookup_insert_eq.
Qed.

(** Two displays with the same keys in the same order, whose values differ
    under the key [k0] only, agree on every other key. *)
Lemma section_py_dict_agree (k0 k : string) (kvs kvs' : list (string * value)) :
  k ≠ k0 →
  Forall2 (λ p p', p.1 = p'.1 ∧ (p.1 = k0 ∨ p.2 = p'.2)) kvs kvs' →
  section (py_dict kvs) k = section (py_dict kvs') k.
Proof.
  intros Hk H. unfold py_dict. cbn [section].
  enough (∀ m m' : gmap string value, m !! k = m' !! k →
            fold_left (λ m kv, <[kv.1 := kv.2]> m) kvs m !! k =
            fold_left (λ m kv, <[kv.1 := kv.2]> m) kvs' m' !! k) as Hfold
    by by apply Hfold.
  induction H as [|[i x] [i' x'] kvs kvs' [Hi Hx] H IH]; intros m m' Hm; [done |].
  cbn [fold_left fst snd] in *. subst i'. apply IH.
  destruct (decide (i = k)) as [-> | Hne].
  - destruct Hx as [-> | ->]; [done | by rewrite !lookup_insert_eq].
  - by rewrite !lookup_insert_ne.
Qed.

(** X5: the emergency fallback reads one key of the request.  Two requests
    with the same entry (or none) under [segmento] get the same record; the
    niche of the record is the value under [segmento], whatever it is, and
    the text [Empreendedorismo Digital] when the request has no such key. *)
Theorem X5_fallback_reads_segment (py_repr : value → string) (now : string)
    (data data' : gmap string value) :
  data !! "segmento" = data' !! "segmento" →
  _generate_emergency_fallback py_repr now data =
  _generate_emergency_fallback py_repr now data' ∧
  nicho_especifico (_generate_emergency_fallback py_repr now data) =
  Some (dict_get data "segmento" (VStr "Empreendedorismo Digital")).
Proof.
  intros H. split.
  - unfold _generate_emergency_fallback, dict_get. by rewrite H.
  - apply nicho_fallback.
Qed.

Lemma X5_fallback_reads_segment_witness :
  let request : gmap string value :=
    {[ "segmento" := VStr "coaching"; "produto" := VStr "curso"; "preco" := VInt 997 ]} in
  _generate_emergency_fallback repr_not_called "T" request =
  _generate_emergency_fallback repr_not_called "T" {[ "segmento" := VStr "coaching" ]} ∧
  nicho_especifico (_generate_emergency_fallback repr_not_called "T" request) =
  Some (VStr "coaching").
Proof.
  intros request.
  destruct (X5_fallback_reads_segment repr_not_called "T" request
              {[ "segmento" := VStr "coaching" ]}) as [H1 H2].
  - vm_compute. reflexivity.
  - split; [exact H1 |]. rewrite H2. vm_compute. reflexivity.
Defined.

(** X6: the clock enters the emergency fallback in one place.  The records
    of the same request at two times have the same sections other than
    [metadata_gemini], and their metadata differ in [generated_at] only,
    which holds the time of the call. *)
Theorem X6_fallback_timestamp (py_repr : value → string) (now now' : string)
    (data : gmap string value) :
  let record := _generate_emergency_fallback py_repr now data in
  let record' := _generate_emergency_fallback py_repr now' data in
  (∀ k, k ≠ "metadata_gemini" → section record k = section record' k) ∧
  ∃ metadata metadata',
    section record "metadata_gemini" = Some metadata ∧
    section record' "metadata_gemini" = Some metadata' ∧
    (∀ k, k ≠ "generated_at" → section metadata k = section metadata' k) ∧
    section metadata "generated_at" = Some (VStr now) ∧
    section metadata' "generated_at" = Some (VStr now').
Proof.
  intros record record'. unfold record, record', _generate_emergency_fallback.
  split.
  - intros k Hk. apply (section_py_dict_agree "metadata_gemini"); [done |].
    same_pairs.
  - eexists _, _.
    split; [apply (section_py_dict_last [_; _; _]) |].
    split; [apply (section_py_dict_last [_; _; _]) |].
    split; [| split; vm_compute; reflexivity].
    intros k Hk. apply (section_py_dict_agree "generated_at"); [done |].
    same_pairs.
Qed.

Lemma X6_fallback_timestamp_witness :
  section (_generate_emergency_fallback repr_not_called "2024-01-01T00:00:00" ∅)
    "escopo_posicionamento" =
  section (_generate_emergency_fallback repr_not_called "2024-06-30T12:00:00" ∅)
    "escopo_posicionamento".
Proof.
  destruct (X6_fallback_timestamp repr_not_called "2024-01-01T00:00:00"
              "2024-06-30T12:00:00" ∅) as [H _].
  apply H. discriminate.
Defined.

(** ** The analysis, end to end *)

(** The analysis on a reply with a text: the parser runs inside the [try],
    so all it raises becomes the emergency fallback of the request. *)
Lemma generate_on_text (json_loads : string → Exc value) (py_repr : value → string)
    (globals : gmap string object) (now : string) (self : Client)
    (analysis_data : gmap string value) (search_context attachments_context : option string)
    (response : Response) (reply : string) :
  model self
    (_build_ultra_comprehensive_prompt py_repr analysis_data search_context
       attachments_context)
    (generation_config self) (safety_settings self) = Ok response →
  text response = Ok reply →
  reply ≠ "" →
  generate_ultra_detailed_analysis json_loads py_repr globals now self
    analysis_data search_context attachments_context =
  try_except (_parse_ultra_detailed_response json_loads py_repr globals now reply)
    (λ e, Ok (_generate_emergency_fallback py_repr now analysis_data)).
Proof.
  intros Hcall Htext Hreply. unfold generate_ultra_detailed_analysis.
  rewrite Hcall. simpl. rewrite Htext.
  by destruct reply as [|c reply].
Qed.

(** X7: the analysis returns what the model wrote.  When the call returns
    a reply whose text is not empty and decodes, without its fence, to an
    object, the result is that object with [metadata_gemini] set to the
    metadata of the call: nothing else is added, removed or checked. *)
Theorem X7_analysis_of_decoded_reply (json_loads : string → Exc value)
    (py_repr : value → string) (globals : gmap string object) (now : string)
    (self : Client) (analysis_data : gmap string value)
    (search_context attachments_context : option string)
    (response : Response) (reply : string) (X : gmap string value) :
  model self
    (_build_ultra_comprehensive_prompt py_repr analysis_data search_context
       attachments_context)
    (generation_config self) (safety_settings self) = Ok response →
  text response = Ok reply →
  reply ≠ "" →
  json_loads (strip_markdown reply) = Ok (VDict X) →
  generate_ultra_detailed_analysis json_loads py_repr globals now self
    analysis_data search_context attachments_context =
  Ok (VDict (<["metadata_gemini" := metadata_gemini now]> X)).
Proof.
  intros Hcall Htext Hreply HX.
  rewrite (generate_on_text _ _ _ _ _ _ _ _ _ _ Hcall Htext Hreply).
  by rewrite (parse_decoded _ _ _ _ _ _ HX).
Qed.

Lemma X7_analysis_of_decoded_reply_witness :
  generate_ultra_detailed_analysis Json.loads repr_not_called module_globals "T"
    (client_of (replying_model (fenced_json foo_json)))
    {[ "segmento" := VStr "coaching" ]} None None =
  Ok (VDict (<["metadata_gemini" := metadata_gemini "T"]> {[ "foo" := VInt 1 ]})).
Proof.
  apply (X7_analysis_of_decoded_reply Json.loads repr_not_called module_globals "T"
           (client_of (replying_model (fenced_json foo_json)))
           {[ "segmento" := VStr "coaching" ]} None None
           {| text := Ok (fenced_json foo_json) |} (fenced_json foo_json)).
  - reflexivity.
  - reflexivity.
  - discriminate.
  - vm_compute. reflexivity.
Defined.

(** X8: every result of the analysis of the module carries a model tag
    that tells where it comes from.  The result has [metadata_gemini] with
    [model] equal to [gemini-1.5-flash] or to [emergency_fallback], and it
    is [gemini-1.5-flash] exactly when the call returned a reply whose text
    is not empty and decodes, without its fence, to an object. *)
Theorem X8_model_tag (json_loads : string → Exc value) (py_repr : value → string)
    (now : string) (self : Client) (analysis_data : gmap string value)
    (search_context attachments_context : option string) :
  let prompt :=
    _build_ultra_comprehensive_prompt py_repr analysis_data search_context
      attachments_context in
  ∃ result tag,
    generate_ultra_detailed_analysis json_loads py_repr module_globals now self
      analysis_data search_context attachments_context = Ok result ∧
    model_tag result = Some (VStr tag) ∧
    (tag = "gemini-1.5-flash" ∨ tag = "emergency_fallback") ∧
    (tag = "gemini-1.5-flash" ↔ decoded_reply json_loads self prompt).
Proof.
  intros prompt.
  (* the results that are a fallback *)
  assert (∀ data,
    generate_ultra_detailed_analysis json_loads py_repr module_globals now self
      analysis_data search_context attachments_context =
      Ok (_generate_emergency_fallback py_repr now data) →
    ¬ decoded_reply json_loads self prompt →
    ∃ result tag,
      generate_ultra_detailed_analysis json_loads py_repr module_globals now self
        analysis_data search_context attachments_context = Ok result ∧
      model_tag result = Some (VStr tag) ∧
      (tag = "gemini-1.5-flash" ∨ tag = "emergency_fallback") ∧
      (tag = "gemini-1.5-flash" ↔ decoded_reply json_loads self prompt)) as Hfb.
  { intros data Hres Hno. exists (_generate_emergency_fallback py_repr now data),
      "emergency_fallback".
    split; [done |]. split; [apply model_tag_fallback |]. split; [by right |].
    split; [done | by intros ?]. }
  destruct (model self prompt (generation_config self) (safety_settings self))
    as [response|e] eqn:Hcall.
  2: { apply (Hfb analysis_data).
       - unfold generate_ultra_detailed_analysis. fold prompt. by rewrite Hcall.
       - intros (r & t & X & H & _). congruence. }
  destruct (text response) as [reply|e] eqn:Htext.
  2: { apply (Hfb analysis_data).
       - unfold generate_ultra_detailed_analysis. fold prompt. rewrite Hcall.
         simpl. by rewrite Htext.
       - intros (r & t & X & H1 & H2 & _). congruence. }
  destruct (decide (reply = "")) as [-> | Hreply].
  { apply (Hfb analysis_data).
    - unfold generate_ultra_detailed_analysis. fold prompt. rewrite Hcall.
      simpl. by rewrite Htext.
    - intros (r & t & X & H1 & H2 & H3 & _). congruence. }
  assert (Hgen := generate_on_text json_loads py_repr module_globals now self
                    analysis_data search_context attachments_context response reply
                    Hcall Htext Hreply).
  assert (∀ r t X,
    model self prompt (generation_config self) (safety_settings self) = Ok r →
    text r = Ok t → json_loads (strip_markdown t) = Ok (VDict X) →
    json_loads (strip_markdown reply) = Ok (VDict X)) as Hsame.
  { intros r t X H1 H2 H3. congruence. }
  destruct (json_loads (strip_markdown reply)) as [v|e] eqn:Hdec.
  - destruct (decide (is_dict v = true)) as [Hv | Hv].
    + destruct v as [| | | | | |X]; try done.
      exists (VDict (<["metadata_gemini" := metadata_gemini now]> X)), "gemini-1.5-flash".
      split; [by rewrite Hgen, (parse_decoded _ _ _ _ _ _ Hdec) |].
      split; [apply model_tag_parsed |]. split; [by left |].
      split; [| done]. intros _. by exists response, reply, X.
    + apply (Hfb analysis_data).
      * rewrite Hgen. unfold _parse_ultra_detailed_response. rewrite Hdec.
        by destruct v.
      * intros (r & t & X & H1 & H2 & _ & H3).
        specialize (Hsame r t X H1 H2 H3). by injection Hsame as ->.
  - destruct (is_JSONDecodeError e) eqn:He.
    + destruct e; try done. apply (Hfb ∅).
      * by rewrite Hgen, (undecodable_reply_gets_fallback _ _ _ _ _ Hdec).
      * intros (r & t & X & H1 & H2 & _ & H3).
        specialize (Hsame r t X H1 H2 H3). done.
    + apply (Hfb analysis_data).
      * rewrite Hgen. unfold _parse_ultra_detailed_response. rewrite Hdec.
        simpl. by rewrite He.
      * intros (r & t & X & H1 & H2 & _ & H3).
        specialize (Hsame r t X H1 H2 H3). done.
Qed.

Lemma X8_model_tag_witness :
  ∃ result tag,
    generate_ultra_detailed_analysis Json.loads repr_not_called module_globals "T"
      (client_of (replying_model (fenced_json foo_json)))
      {[ "segmento" := VStr "coaching" ]} None None = Ok result ∧
    model_tag result = Some (VStr tag) ∧
    (tag = "gemini-1.5-flash" ∨ tag = "emergency_fallback").
Proof.
  destruct (X8_model_tag Json.loads repr_not_called "T"
              (client_of (replying_model (fenced_json foo_json)))
              {[ "segmento" := VStr "coaching" ]} None None)
    as (result & tag & H1 & H2 & H3 & _).
  by exists result, tag.
Defined.

(** X9: a reply that does not decode loses the request.  When the call
    returns a text that is not empty and that the decoder rejects, the
    analysis of the module returns the emergency fallback of the empty
    request, not the one of the caller's request: the niche of the result is
    [Empreendedorismo Digital] whatever segment was asked for. *)
Theorem X9_undecodable_reply_loses_request (json_loads : string → Exc value)
    (py_repr : value → string) (now : string) (self : Client)
    (analysis_data : gmap string value)
    (search_context attachments_context : option string)
    (response : Response) (reply msg : string) :
  model self
    (_build_ultra_comprehensive_prompt py_repr analysis_data search_context
       attachments_context)
    (generation_config self) (safety_settings self) = Ok response →
  text response = Ok reply →
  reply ≠ "" →
  json_loads (strip_markdown reply) = Raise (JSONDecodeError msg) →
  generate_ultra_detailed_analysis json_loads py_repr module_globals now self
    analysis_data search_context attachments_context =
  Ok (_generate_emergency_fallback py_repr now ∅) ∧
  nicho_especifico (_generate_emergency_fallback py_repr now ∅) =
  Some (VStr "Empreendedorismo Digital").
Proof.
  intros Hcall Htext Hreply Hdec. split.
  - rewrite (generate_on_text _ _ _ _ _ _ _ _ _ _ Hcall Htext Hreply).
    by rewrite (undecodable_reply_gets_fallback _ _ _ _ _ Hdec).
  - by rewrite nicho_fallback.
Qed.

Lemma X9_undecodable_reply_loses_request_witness :
  generate_ultra_detailed_analysis Json.loads repr_not_called module_globals "T"
    (client_of (replying_model "Desculpe, não consegui."))
    {[ "segmento" := VStr "coaching" ]} None None =
  Ok (_generate_emergency_fallback repr_not_called "T" ∅) ∧
  nicho_especifico (_generate_emergency_fallback repr_not_called "T" ∅) =
  Some (VStr "Empreendedorismo Digital").
Proof.
  apply (X9_undecodable_reply_loses_request Json.loads repr_not_called "T"
           (client_of (replying_model "Desculpe, não consegui."))
           {[ "segmento" := VStr "coaching" ]} None None
           {| text := Ok "Desculpe, não consegui." |} "Desculpe, não consegui."
           "Expecting value").
  - reflexivity.
  - reflexivity.
  - discriminate.
  - vm_compute. reflexivity.
Defined.

(** ** The prompt and the request *)

Lemma lines_elem_line (x : string) (ls : list string) :
  x ∈ ls → ∃ a b, lines ls = a +:+ (x +:+ nl) +:+ b.
Proof.
  induction ls as [|l ls IH]; [by intros ?%elem_of_nil |].
  intros [-> | [a [b E]]%IH]%elem_of_cons.
  - exists "", (lines ls). cbn [lines]. by rewrite app_nil_l, !app_assoc.
  - exists (l +:+ nl +:+ a), b. cbn [lines]. by rewrite E, !app_assoc.
Qed.

(** X10: the prompt writes every field the request supplies, as it is.
    For each of the nine fields that the request holds, the prompt has the
    line made of the label of the field and of the text of its value,
    whatever that text contains: nothing is escaped or cut. *)
Theorem X10_prompt_writes_fields (py_repr : value → string)
    (data : gmap string value) (search_context attachments_context : option string)
    (f : string * string) (v : value) :
  f ∈ request_fields →
  data !! f.1 = Some v →
  py_in (f.2 +:+ py_str py_repr v +:+ nl)
    (_build_ultra_comprehensive_prompt py_repr data search_context
       attachments_context) = true.
Proof.
  intros Hf Hv.
  destruct (prompt_shape py_repr data search_context attachments_context)
    as [rest ->].
  assert (f.2 +:+ py_str py_repr v ∈
          prompt_opening ++ map (field_line py_repr data) request_fields) as Hin.
  { apply elem_of_app. right. apply list_elem_of_In, in_map_iff.
    exists f. split; [| by apply list_elem_of_In].
    unfold field_line, dict_get. by rewrite Hv. }
  apply lines_elem_line in Hin as (a & b & ->).
  apply py_in_spec. exists a, (b +:+ rest). by rewrite !app_assoc.
Qed.

Lemma X10_prompt_writes_fields_witness :
  py_in ("- **Preço**: R$ " +:+ "997" +:+ nl)
    (_build_ultra_comprehensive_prompt repr_not_called
       {[ "preco" := VInt 997; "segmento" := VStr "coaching" ]} None None) = true.
Proof.
  apply (X10_prompt_writes_fields repr_not_called
           {[ "preco" := VInt 997; "segmento" := VStr "coaching" ]} None None
           ("preco", "- **Preço**: R$ ") (VInt 997)).
  - unfold request_fields. set_solver.
  - vm_compute. reflexivity.
Defined.

(** X11: the prompt reads nothing else.  Two requests that agree on the
    nine fields give the same prompt with the same contexts, whatever other
    keys they hold; and an empty search or attachments context gives the
    prompt of an absent one. *)
Theorem X11_prompt_reads_nine_fields (py_repr : value → string)
    (data data' : gmap string value) (search_context attachments_context : option string) :
  (∀ f, f ∈ request_fields → data !! f.1 = data' !! f.1) →
  _build_ultra_comprehensive_prompt py_repr data search_context attachments_context =
  _build_ultra_comprehensive_prompt py_repr data'
    (given search_context) (given attachments_context).
Proof.
  intros H.
  assert (map (field_line py_repr data) request_fields =
          map (field_line py_repr data') request_fields) as E.
  { apply map_ext_in. intros f Hf%list_elem_of_In.
    unfold field_line, dict_get. by rewrite (H f Hf). }
  unfold _build_ultra_comprehensive_prompt. rewrite E.
  by destruct search_context as [[|c s]|], attachments_context as [[|c' s']|].
Qed.

Lemma X11_prompt_reads_nine_fields_witness :
  _build_ultra_comprehensive_prompt repr_not_called
    {[ "segmento" := VStr "coaching"; "idioma" := VStr "pt-BR" ]} (Some "") None =
  _build_ultra_comprehensive_prompt repr_not_called
    {[ "segmento" := VStr "coaching" ]} None None.
Proof.
  apply (X11_prompt_reads_nine_fields repr_not_called
           {[ "segmento" := VStr "coaching"; "idioma" := VStr "pt-BR" ]}
           {[ "segmento" := VStr "coaching" ]} (Some "") None).
  intros f Hf. unfold request_fields in Hf.
  repeat (apply elem_of_cons in Hf as [-> | Hf]; [vm_compute; reflexivity |]).
  by apply elem_of_nil in Hf.
Defined.

(** ** The heuristic extraction, were [data] bound *)

Lemma py_prefix_is_prefix (n : nat) (s : string) : ∃ t, s = py_prefix n s +:+ t.
Proof.
  revert n. induction s as [|c s IH]; intros n; [by exists "" |].
  cbn [py_prefix]. destruct (continuation c).
  - destruct (IH n) as [t Ht]. exists t. by rewrite app_cons, <- Ht.
  - destruct n as [|n]; [by exists (String c s) |].
    destruct (IH n) as [t Ht]. exists t. by rewrite app_cons, <- Ht.
Qed.

Lemma py_prefix_len (n : nat) (s : string) : py_len (py_prefix n s) ≤ n.
Proof.
  revert n. induction s as [|c s IH]; intros n; [simpl; lia |].
  cbn [py_prefix]. destruct (continuation c) eqn:Hc.
  - cbn [py_len]. rewrite Hc. apply IH.
  - destruct n as [|n]; [simpl; lia |].
    cbn [py_len]. rewrite Hc. specialize (IH n). lia.
Qed.

Lemma py_prefix_short (n : nat) (s : string) : py_len s ≤ n → py_prefix n s = s.
Proof.
  revert n. induction s as [|c s IH]; intros n; [done |].
  cbn [py_prefix py_len]. destruct (continuation c).
  - intros H. by rewrite IH.
  - destruct n as [|n]; [lia |]. intros H. rewrite IH; [done | lia].
Qed.


